(** * A DDNS update client: address resolution, update construction,
      transport dispatch and response classification.

    Shallow embedding of [main.py].  The program is a script around three
    libraries (psutil, ipaddress, dnspython); what the libraries do at run
    time is part of an explicit environment [Env], while everything the
    script itself decides is a Rocq function over that environment. *)

From Stdlib Require Import ZArith List Bool Lia.
From Stdlib.Strings Require Import Ascii String Byte.
Import ListNotations.

Local Open Scope string_scope.
Local Open Scope Z_scope.

(* ================================================================= *)
(** ** Python strings *)

(** Python [str] values are modelled by their UTF-8 bytes. *)
Module PyStr.

(** Lower-casing of one byte: an ASCII capital becomes the small
    letter, every other byte is kept.  Python's [str.lower] also maps
    capitals outside ASCII; no such character lower-cases to an ASCII
    letter of the preference list of the resolver, and the CJK
    characters of that list have no case, so the membership test
    [name.lower() in special_interfaces] gives the same answer. *)
Definition lower_ascii (c : ascii) : ascii :=
  let n := nat_of_ascii c in
  if ((65 <=? n)%nat && (n <=? 90)%nat)%bool then ascii_of_nat (n + 32) else c.

(** [s.lower()]. *)
Fixpoint lower (s : string) : string :=
  match s with
  | EmptyString => EmptyString
  | String c r => String (lower_ascii c) (lower r)
  end.

(** [x in xs] for a list of strings. *)
Fixpoint mem (x : string) (xs : list string) : bool :=
  match xs with
  | [] => false
  | y :: r => if String.eqb x y then true else mem x r
  end.

(** [c in s] for a character. *)
Fixpoint contains (c : ascii) (s : string) : bool :=
  match s with
  | EmptyString => false
  | String c' r => if Ascii.eqb c' c then true else contains c r
  end.

(** [s.endswith(".")]. *)
Fixpoint endswith_dot (s : string) : bool :=
  match s with
  | EmptyString => false
  | String c EmptyString => Ascii.eqb c "."
  | String _ r => endswith_dot r
  end.

(** [s.split(sep)] for a one-character separator. *)
Fixpoint split (sep : ascii) (s : string) : list string :=
  match s with
  | EmptyString => [EmptyString]
  | String c r =>
      if Ascii.eqb c sep then EmptyString :: split sep r
      else match split sep r with
           | [] => [String c EmptyString]
           | w :: ws => String c w :: ws
           end
  end.

(** [sep.join(xs)]. *)
Fixpoint join (sep : string) (xs : list string) : string :=
  match xs with
  | [] => EmptyString
  | [x] => x
  | x :: r => x ++ sep ++ join sep r
  end.

Definition is_digit (c : ascii) : bool :=
  let n := nat_of_ascii c in ((48 <=? n)%nat && (n <=? 57)%nat)%bool.

(** [s.isascii() and s.isdigit()] on a non-empty string. *)
Fixpoint all_digits (s : string) : bool :=
  match s with
  | EmptyString => true
  | String c r => is_digit c && all_digits r
  end.

(** [int(s, 10)] for a string of ASCII digits. *)
Fixpoint int_of_digits (acc : Z) (s : string) : Z :=
  match s with
  | EmptyString => acc
  | String c r => int_of_digits (10 * acc + (Z.of_nat (nat_of_ascii c) - 48)) r
  end.

Definition digit_char (d : Z) : ascii := ascii_of_nat (Z.to_nat (48 + d)).

(** [str(n)] for an integer [0 <= n < 1000]. *)
Definition str_small (n : Z) : string :=
  if n <? 10 then String (digit_char n) EmptyString
  else if n <? 100 then
    String (digit_char (n / 10)) (String (digit_char (n mod 10)) EmptyString)
  else
    String (digit_char (n / 100))
      (String (digit_char ((n / 10) mod 10))
         (String (digit_char (n mod 10)) EmptyString)).

End PyStr.

(* ================================================================= *)
(** ** Exceptions *)

(** The exceptions that can travel through the script.  [ValueError] is
    the one the script raises itself, with its message; the others are
    raised by the interpreter or by a library. *)
Inductive exn : Type :=
| ValueError (msg : string)
| UnboundLocalError (var : string)
| AddressValueError (addr : string)
| AttributeError (what : string)
| TypeError (what : string)
| DNSException (what : string)
| OSError (what : string)
| ValidationError (model : string).

(** [isinstance(e, dns.exception.DNSException)]. *)
Definition is_DNSException (e : exn) : bool :=
  match e with
  | DNSException _ => true
  | _ => false
  end.

(** A computation that returns or raises. *)
Inductive result (A : Type) : Type :=
| Ok (a : A)
| Err (e : exn).
Arguments Ok {A} a.
Arguments Err {A} e.

(* ================================================================= *)
(** ** [ipaddress.IPv4Address] *)

Module IPv4.

(** An address is its 32-bit integer value. *)
Definition t := Z.

(** [IPv4Address._parse_octet]: the octet, or [None] for the
    [ValueError] it raises. *)
Definition parse_octet (octet_str : string) : option Z :=
  match octet_str with
  | EmptyString => None
  | String c0 _ =>
      if negb (PyStr.all_digits octet_str) then None
      else if (3 <? String.length octet_str)%nat then None
      else if (negb (String.eqb octet_str "0") && Ascii.eqb c0 "0")%bool then None
      else
        let octet_int := PyStr.int_of_digits 0 octet_str in
        if 255 <? octet_int then None else Some octet_int
  end.

(** [int.from_bytes(octets, 'big')]. *)
Definition from_octets (a b c d : Z) : t :=
  ((a * 256 + b) * 256 + c) * 256 + d.

(** [IPv4Address(address)] for a [str] argument. *)
Definition IPv4Address (address : string) : result t :=
  match address with
  | EmptyString => Err (AddressValueError address)
  | _ =>
      match PyStr.split "." address with
      | [o1; o2; o3; o4] =>
          match parse_octet o1, parse_octet o2, parse_octet o3, parse_octet o4 with
          | Some a, Some b, Some c, Some d => Ok (from_octets a b c d)
          | _, _, _, _ => Err (AddressValueError address)
          end
      | _ => Err (AddressValueError address)
      end
  end.

(** Membership in a network given by its first address and prefix
    length. *)
Definition in_network (base : Z) (prefixlen : Z) (ip : t) : bool :=
  (ip / 2 ^ (32 - prefixlen)) =? (base / 2 ^ (32 - prefixlen)).

(** 127.0.0.0/8 *)
Definition is_loopback (ip : t) : bool := in_network (from_octets 127 0 0 0) 8 ip.
(** 169.254.0.0/16 *)
Definition is_link_local (ip : t) : bool := in_network (from_octets 169 254 0 0) 16 ip.
(** 240.0.0.0/4 *)
Definition is_reserved (ip : t) : bool := in_network (from_octets 240 0 0 0) 4 ip.

(** The four octets, most significant first. *)
Definition octets (ip : t) : list Z :=
  [ (ip / 16777216) mod 256; (ip / 65536) mod 256; (ip / 256) mod 256; ip mod 256 ].

(** [ip.compressed]: the dotted-quad text. *)
Definition compressed (ip : t) : string :=
  PyStr.join "." (map PyStr.str_small (octets ip)).

End IPv4.

(* ================================================================= *)
(** ** Option and result sequencing *)

Definition obind {A B : Type} (m : option A) (k : A -> option B) : option B :=
  match m with
  | Some a => k a
  | None => None
  end.

Definition rbind {A B : Type} (m : result A) (k : A -> result B) : result B :=
  match m with
  | Ok a => k a
  | Err e => Err e
  end.

Notation "x <-? m ;; k" := (obind m (fun x => k))
  (at level 61, m at next level, right associativity).
Notation "' p <-? m ;; k" := (obind m (fun x => match x with p => k end))
  (at level 61, p pattern, m at next level, right associativity).
Notation "x <-! m ;; k" := (rbind m (fun x => k))
  (at level 61, m at next level, right associativity).

(* ================================================================= *)
(** ** DNS names, UPDATE messages and their wire format *)

(** The script leaves names, messages and their bytes to dnspython.
    The part of the library the update goes through is written out here,
    after RFC 1035 (names, resource records) and RFC 2136 (the sections
    of an UPDATE message). *)

Module DNS.

Local Open Scope list_scope.

(** A name is its tuple of labels; an absolute name ends with the empty
    (root) label, as in [dns.name.Name]. *)
Definition Name := list string.

Definition root : Name := [""].

Fixpoint is_absolute (n : Name) : bool :=
  match n with
  | [] => false
  | [l] => String.eqb l ""
  | _ :: r => is_absolute r
  end.

(** Length of the wire form: one length byte and the bytes of each
    label. *)
Fixpoint wire_length (n : Name) : nat :=
  match n with
  | [] => 0
  | l :: r => S (String.length l) + wire_length r
  end.

(** Only the last label may be empty. *)
Fixpoint inner_labels_ok (n : Name) : bool :=
  match n with
  | [] => true
  | [l] => (String.length l <=? 63)%nat
  | l :: r => negb (String.eqb l "") && (String.length l <=? 63)%nat && inner_labels_ok r
  end.

(** The checks of the [Name] constructor: no label longer than 63
    bytes, no empty label but the last, at most 255 bytes on the
    wire.  [None] stands for the exception it raises. *)
Definition validate (n : Name) : option Name :=
  if (inner_labels_ok n && (wire_length n <=? 255)%nat)%bool then Some n else None.

(** [name.derelativize(origin)]: a relative name is completed with the
    origin, and the joined labels go through the checks of the
    constructor again. *)
Definition derelativize (n origin : Name) : option Name :=
  if is_absolute n then Some n else validate (n ++ origin).

Definition A : Z := 1.
Definition SOA : Z := 6.
Definition IN : Z := 1.
Definition ANY : Z := 255.
Definition UPDATE : Z := 5.

(** Response codes, [dns.rcode]. *)
Definition NOERROR : Z := 0.
Definition SERVFAIL : Z := 2.
Definition NXDOMAIN : Z := 3.
Definition REFUSED : Z := 5.
Definition NOTAUTH : Z := 9.
Definition NOTZONE : Z := 10.

(** One entry of the zone section. *)
Record Question : Type := mkQuestion
  { q_name : Name; q_type : Z; q_class : Z }.

(** One resource record of the prerequisite, update or additional
    section. *)
Record RR : Type := mkRR
  { rr_name : Name; rr_class : Z; rr_type : Z; rr_ttl : Z; rr_rdata : list byte }.

Record Message : Type := mkMessage
  { id : Z;
    flags : Z;
    zone : list Question;
    prerequisite : list RR;
    update : list RR;
    additional : list RR }.

(** A TSIG keyring: key name, algorithm and decoded secret. *)
Definition Keyring := list (Name * (string * list byte)).

(** [dns.update.UpdateMessage]: the message under construction, the
    origin relative names are completed with, and the keyring. *)
Record UpdateMessage : Type := mkUpdate
  { origin : Name; keyring : Keyring; message : Message }.

(** What the script reads of a response. *)
Record Response : Type := mkResponse
  { resp_id : Z; resp_rcode : Z }.

(** *** Integers on the wire ([struct.pack], network byte order) *)

Definition byte_of_Z (z : Z) : byte :=
  match Byte.of_N (Z.to_N (z mod 256)) with
  | Some b => b
  | None => x00
  end.

Definition Z_of_byte (b : byte) : Z := Z.of_N (Byte.to_N b).

Definition pack_u16 (z : Z) : option (list byte) :=
  if ((0 <=? z) && (z <? 65536))%bool
  then Some [byte_of_Z (z / 256); byte_of_Z z] else None.

Definition pack_u32 (z : Z) : option (list byte) :=
  if ((0 <=? z) && (z <? 4294967296))%bool
  then Some [byte_of_Z (z / 16777216); byte_of_Z (z / 65536);
             byte_of_Z (z / 256); byte_of_Z z]
  else None.

Definition unpack_u16 (bs : list byte) : option (Z * list byte) :=
  match bs with
  | b1 :: b0 :: r => Some (Z_of_byte b1 * 256 + Z_of_byte b0, r)
  | _ => None
  end.

Definition unpack_u32 (bs : list byte) : option (Z * list byte) :=
  match bs with
  | b3 :: b2 :: b1 :: b0 :: r =>
      Some (((Z_of_byte b3 * 256 + Z_of_byte b2) * 256 + Z_of_byte b1) * 256
            + Z_of_byte b0, r)
  | _ => None
  end.

(** *** Rendering *)

(** A length byte followed by the label.  Names are written without
    compression. *)
Fixpoint name_to_wire (n : Name) : list byte :=
  match n with
  | [] => []
  | l :: r =>
      byte_of_Z (Z.of_nat (String.length l)) :: list_byte_of_string l ++ name_to_wire r
  end.

Definition question_to_wire (org : Name) (q : Question) : option (list byte) :=
  n <-? derelativize (q_name q) org ;;
  t <-? pack_u16 (q_type q) ;;
  c <-? pack_u16 (q_class q) ;;
  Some (name_to_wire n ++ t ++ c).

Definition rr_to_wire (org : Name) (r : RR) : option (list byte) :=
  n <-? derelativize (rr_name r) org ;;
  t <-? pack_u16 (rr_type r) ;;
  c <-? pack_u16 (rr_class r) ;;
  ttl <-? pack_u32 (rr_ttl r) ;;
  len <-? pack_u16 (Z.of_nat (List.length (rr_rdata r))) ;;
  Some (name_to_wire n ++ t ++ c ++ ttl ++ len ++ rr_rdata r).

Fixpoint section_to_wire {X : Type} (f : X -> option (list byte)) (xs : list X)
  : option (list byte) :=
  match xs with
  | [] => Some []
  | x :: r =>
      b <-? f x ;;
      bs <-? section_to_wire f r ;;
      Some (b ++ bs)
  end.

(** Modelled from the spec: the serialiser of dnspython (not under
    src/), for the "standard DNS UPDATE message (RFC 2136)": the header
    with the four counts, then the zone, prerequisite, update and
    additional sections.  [None] stands for the exception raised when a
    value does not fit its field. *)
Definition to_wire (org : Name) (m : Message) : option (list byte) :=
  i <-? pack_u16 (id m) ;;
  f <-? pack_u16 (flags m) ;;
  zc <-? pack_u16 (Z.of_nat (List.length (zone m))) ;;
  pc <-? pack_u16 (Z.of_nat (List.length (prerequisite m))) ;;
  uc <-? pack_u16 (Z.of_nat (List.length (update m))) ;;
  ac <-? pack_u16 (Z.of_nat (List.length (additional m))) ;;
  z <-? section_to_wire (question_to_wire org) (zone m) ;;
  p <-? section_to_wire (rr_to_wire org) (prerequisite m) ;;
  u <-? section_to_wire (rr_to_wire org) (update m) ;;
  a <-? section_to_wire (rr_to_wire org) (additional m) ;;
  Some (i ++ f ++ zc ++ pc ++ uc ++ ac ++ z ++ p ++ u ++ a).

(** *** Parsing *)

(** Labels up to and including the root label.  A length byte above
    63 (a compression pointer) does not occur in what [to_wire]
    writes and is refused. *)
Fixpoint labels_from_wire (fuel : nat) (bs : list byte) : option (Name * list byte) :=
  match fuel with
  | O => None
  | S fuel' =>
      match bs with
      | [] => None
      | b :: r =>
          let n := Byte.to_nat b in
          if (n =? 0)%nat then Some ([""], r)
          else if (63 <? n)%nat then None
          else if (List.length r <? n)%nat then None
          else
            '(ls, r') <-? labels_from_wire fuel' (skipn n r) ;;
            Some (string_of_list_byte (firstn n r) :: ls, r')
      end
  end.

Definition name_from_wire (bs : list byte) : option (Name * list byte) :=
  '(n, r) <-? labels_from_wire (List.length bs) bs ;;
  if (wire_length n <=? 255)%nat then Some (n, r) else None.

Definition question_from_wire (bs : list byte) : option (Question * list byte) :=
  '(n, r) <-? name_from_wire bs ;;
  '(t, r) <-? unpack_u16 r ;;
  '(c, r) <-? unpack_u16 r ;;
  Some (mkQuestion n t c, r).

Definition rr_from_wire (bs : list byte) : option (RR * list byte) :=
  '(n, r) <-? name_from_wire bs ;;
  '(t, r) <-? unpack_u16 r ;;
  '(c, r) <-? unpack_u16 r ;;
  '(ttl, r) <-? unpack_u32 r ;;
  '(len, r) <-? unpack_u16 r ;;
  if (List.length r <? Z.to_nat len)%nat then None
  else Some (mkRR n c t ttl (firstn (Z.to_nat len) r), skipn (Z.to_nat len) r).

Fixpoint section_from_wire {X : Type} (f : list byte -> option (X * list byte))
  (count : nat) (bs : list byte) : option (list X * list byte) :=
  match count with
  | O => Some ([], bs)
  | S count' =>
      '(x, r) <-? f bs ;;
      '(xs, r') <-? section_from_wire f count' r ;;
      Some (x :: xs, r')
  end.

(** Modelled from the spec: the decoder of such a message (dnspython's
    [from_wire], not under src/), section by section as the counts of
    the header say; bytes left over are an error. *)
Definition from_wire (bs : list byte) : option Message :=
  '(i, r) <-? unpack_u16 bs ;;
  '(f, r) <-? unpack_u16 r ;;
  '(zc, r) <-? unpack_u16 r ;;
  '(pc, r) <-? unpack_u16 r ;;
  '(uc, r) <-? unpack_u16 r ;;
  '(ac, r) <-? unpack_u16 r ;;
  '(z, r) <-? section_from_wire question_from_wire (Z.to_nat zc) r ;;
  '(p, r) <-? section_from_wire rr_from_wire (Z.to_nat pc) r ;;
  '(u, r) <-? section_from_wire rr_from_wire (Z.to_nat uc) r ;;
  '(a, r) <-? section_from_wire rr_from_wire (Z.to_nat ac) r ;;
  match r with
  | [] => Some (mkMessage i f z p u a)
  | _ :: _ => None
  end.

(** *** Messages as the receiver sees them *)

(** The name the wire carries: the name itself when it is absolute,
    the name under the origin otherwise. *)
Definition absolute_name (org n : Name) : Name :=
  match derelativize n org with
  | Some n' => n'
  | None => n
  end.

Definition absolute_question (org : Name) (q : Question) : Question :=
  mkQuestion (absolute_name org (q_name q)) (q_type q) (q_class q).

Definition absolute_rr (org : Name) (r : RR) : RR :=
  mkRR (absolute_name org (rr_name r)) (rr_class r) (rr_type r) (rr_ttl r) (rr_rdata r).

Definition absolute_message (org : Name) (m : Message) : Message :=
  mkMessage (id m) (flags m)
    (map (absolute_question org) (zone m))
    (map (absolute_rr org) (prerequisite m))
    (map (absolute_rr org) (update m))
    (map (absolute_rr org) (additional m)).

(** A name a [Name] object can hold in absolute form. *)
Definition fit (n : Name) : bool :=
  is_absolute n && inner_labels_ok n && (wire_length n <=? 255)%nat.

(** Every name of the message is fit once it is made absolute. *)
Definition names_fit (org : Name) (m : Message) : bool :=
  forallb (fun q => fit (absolute_name org (q_name q))) (zone m)
  && forallb (fun r => fit (absolute_name org (rr_name r))) (prerequisite m)
  && forallb (fun r => fit (absolute_name org (rr_name r))) (update m)
  && forallb (fun r => fit (absolute_name org (rr_name r))) (additional m).

End DNS.

(* ================================================================= *)
(** ** Log records and the trace of a run *)

Inductive level : Type := DEBUG | INFO | ERROR.

(** [config.name_server]: [None], an address object validated by the
    settings loader (kept as its [compressed] text), or the plain [str]
    the command line assigns. *)
Inductive name_server_value : Type :=
| NsNone
| NsAddress (compressed : string)
| NsStr (s : string).

(** A value interpolated into an f-string. *)
Inductive value : Type :=
| VStr (s : string)
| VOptStr (s : option string)
| VInt (z : Z)
| VRcode (rcode : Z)
| VAddr (ip : IPv4.t)
| VExn (e : exn)
| VNameServer (ns : name_server_value)
| VUpdate (u : DNS.UpdateMessage)
| VResponse (r : DNS.Response).

(** An f-string: literal text and holes, in order. *)
Inductive frag : Type :=
| Lit (s : string)
| Hole (v : value).

Definition fstring := list frag.

(** What a run does that the outside can see: a call of the logger, or
    a call of the attribute of [dns.query] chosen as transport. *)
Inductive event : Type :=
| Log (l : level) (msg : fstring) (exc_info : bool)
| Call (attribute : string) (q : DNS.UpdateMessage) (where_ : string) (timeout : Z).

(** How a piece of the script ends: it falls through with a value, it
    calls [sys.exit], or an exception leaves it. *)
Inductive outcome (A : Type) : Type :=
| Returns (a : A)
| Exits (code : Z)
| Raises (e : exn).
Arguments Returns {A} a.
Arguments Exits {A} code.
Arguments Raises {A} e.

Definition M (A : Type) : Type := (list event * outcome A)%type.

Definition ret {A : Type} (a : A) : M A := ([], Returns a).

Definition bind {A B : Type} (m : M A) (k : A -> M B) : M B :=
  match m with
  | (t, Returns a) => let (t', o) := k a in ((t ++ t')%list, o)
  | (t, Exits c) => (t, Exits c)
  | (t, Raises e) => (t, Raises e)
  end.

Notation "x <- m ;; k" := (bind m (fun x => k))
  (at level 61, m at next level, right associativity).
Notation "m ;;; k" := (bind m (fun _ => k))
  (at level 61, right associativity).

Definition log (l : level) (msg : fstring) (exc_info : bool) : M unit :=
  ([Log l msg exc_info], Returns tt).

Definition sys_exit {A : Type} (code : Z) : M A := ([], Exits code).

Definition raise {A : Type} (e : exn) : M A := ([], Raises e).

Definition lift {A : Type} (r : result A) : M A :=
  match r with
  | Ok a => ret a
  | Err e => raise e
  end.

(** [if c: body] where the body ends the run or falls through. *)
Definition when (c : bool) (body : M unit) : M unit :=
  if c then body else ret tt.

(** [try: body  except dns.exception.DNSException as e: handler]. *)
Definition try_except_DNSException {A : Type} (body : M A) (handler : exn -> M A) : M A :=
  match body with
  | (t, Raises e) =>
      if is_DNSException e
      then let (t', o) := handler e in ((t ++ t')%list, o)
      else (t, Raises e)
  | other => other
  end.

(* ================================================================= *)
(** ** The environment: what the libraries answer *)

Inductive address_family : Type := AF_INET | AF_INET6 | AF_LINK.

Definition family_eqb (a b : address_family) : bool :=
  match a, b with
  | AF_INET, AF_INET | AF_INET6, AF_INET6 | AF_LINK, AF_LINK => true
  | _, _ => false
  end.

(** [psutil]'s [snicaddr], as far as the script reads it. *)
Record snicaddr : Type := mkAddr
  { family : address_family; address : string }.

(** [psutil.net_if_addrs()]: a dict from interface name to addresses,
    in insertion order. *)
Definition enumeration := list (string * list snicaddr).

(** An attribute of the module [dns.query]: a function that takes
    [(q, where, timeout=...)] and answers or raises, or anything else. *)
Inductive attr : Type :=
| Function (f : DNS.UpdateMessage -> string -> Z -> result DNS.Response)
| Other.

Record Env : Type := mkEnv
  { (** [psutil.net_if_addrs()], which may raise *)
    net_if_addrs : result enumeration;
    (** the text-to-labels step of [dns.name.from_text] (escapes, IDNA) *)
    parse_labels : string -> result (list string);
    (** [dns.tsigkeyring.from_text] *)
    tsigkeyring_from_text : list (string * (string * string)) -> result DNS.Keyring;
    (** the identifier drawn for a new message *)
    random_id : Z;
    (** the namespace of the module [dns.query] *)
    dns_query : list (string * attr) }.

(** [d[k]], [None] when [k not in d]. *)
Fixpoint dict_get {V : Type} (k : string) (d : list (string * V)) : option V :=
  match d with
  | [] => None
  | (k', v) :: r => if String.eqb k k' then Some v else dict_get k r
  end.

(** [d[k] = v]: an existing key keeps its place. *)
Fixpoint dict_set {V : Type} (k : string) (v : V) (d : list (string * V))
  : list (string * V) :=
  match d with
  | [] => [(k, v)]
  | (k', v') :: r => if String.eqb k k' then (k, v) :: r else (k', v') :: dict_set k v r
  end.

(** [dir(module)], as far as membership goes. *)
Definition dir {V : Type} (d : list (string * V)) : list string := map fst d.

(* ================================================================= *)
(** ** The address resolver, [get_interface_ip] *)

Module Resolver.

Definition special_interfaces : list string := ["wlan"; "以太网"; "ethernet"].

(** The loop over [net_if_addrs.items()]: the value bound to [netif]
    when it breaks, [None] when it ends with [netif] unbound. *)
Fixpoint first_special (items : enumeration) : option (list snicaddr) :=
  match items with
  | [] => None
  | (name, addrs) :: r =>
      if PyStr.mem (PyStr.lower name) special_interfaces then Some addrs
      else first_special r
  end.

Definition usable (ip : IPv4.t) : bool :=
  negb (IPv4.is_loopback ip) && negb (IPv4.is_link_local ip) && negb (IPv4.is_reserved ip).

(** The loop over [netif]. *)
Fixpoint first_usable (netif : list snicaddr) : result (option IPv4.t) :=
  match netif with
  | [] => Ok None
  | addr :: r =>
      if family_eqb (family addr) AF_INET then
        ip <-! IPv4.IPv4Address (address addr) ;;
        if usable ip then Ok (Some ip) else first_usable r
      else first_usable r
  end.

(** The interface the [if] binds to [netif]: the heuristic choice when
    no name is given, the named entry otherwise.  When the heuristic
    loop ends without a match [netif] stays unbound, and the loop that
    reads it next raises [UnboundLocalError]. *)
Definition select_netif (interface_name : option string) (net_if_addrs : enumeration)
  : result (list snicaddr) :=
  match interface_name with
  | None =>
      match first_special net_if_addrs with
      | Some addrs => Ok addrs
      | None => Err (UnboundLocalError "netif")
      end
  | Some name =>
      match dict_get name net_if_addrs with
      | None => Err (ValueError ("找不到接口: " ++ name))
      | Some addrs => Ok addrs
      end
  end.

(** The body of the [try]. *)
Definition body (env : Env) (interface_name : option string) : result (option IPv4.t) :=
  net_if_addrs <-! net_if_addrs env ;;
  netif <-! select_netif interface_name net_if_addrs ;;
  first_usable netif.

(** [get_interface_ip]: every exception of the body is logged and
    turned into [None]. *)
Definition get_interface_ip (env : Env) (interface_name : option string)
  : M (option IPv4.t) :=
  match body env interface_name with
  | Ok r => ret r
  | Err e =>
      log ERROR [Lit "获取接口IP地址失败: "; Hole (VExn e)] false ;;;
      ret None
  end.

End Resolver.

(* ================================================================= *)
(** ** Building the update message *)

(** The script builds its message with two calls into dnspython,
    [dns.update.Update(zone=..., keyring=...)] and
    [update.replace(hostname, ttl, "A", address)].  The library is not part
    of the repository; its part is written here after RFC 2136 and the
    design document. *)
Module Builder.

Import DNS.
Local Open Scope list_scope.

(** [dns.ipv4.inet_aton]: four decimal parts without leading zeros,
    each at most 255. *)
Definition inet_aton_part (part : string) : option byte :=
  match part with
  | EmptyString => None
  | String c0 rest =>
      if negb (PyStr.all_digits part) then None
      else if (negb (String.eqb rest "") && Ascii.eqb c0 "0")%bool then None
      else
        let v := PyStr.int_of_digits 0 part in
        if 255 <? v then None else Some (byte_of_Z v)
  end.

Definition inet_aton (text : string) : result (list byte) :=
  match PyStr.split "." text with
  | [p1; p2; p3; p4] =>
      match inet_aton_part p1, inet_aton_part p2, inet_aton_part p3, inet_aton_part p4 with
      | Some b1, Some b2, Some b3, Some b4 => Ok [b1; b2; b3; b4]
      | _, _, _, _ => Err (DNSException "SyntaxError")
      end
  | _ => Err (DNSException "SyntaxError")
  end.

(** [dns.name.from_text(text, origin)]: the labels of the text, completed
    with the origin when they are relative and an origin is given, then
    checked by the [Name] constructor. *)
Definition name_from_text (env : Env) (text : string) (org : option Name) : result Name :=
  labels <-! parse_labels env text ;;
  let labels :=
    match org with
    | Some o => if is_absolute labels then labels else labels ++ o
    | None => labels
    end in
  match validate labels with
  | Some n => Ok n
  | None => Err (DNSException "SyntaxError")
  end.

(** Modelled from the spec: [dns.update.Update(zone, keyring)] (dnspython,
    not under src/), "a single-zone DNS UPDATE message": opcode UPDATE,
    one zone entry of type SOA and class IN, empty sections. *)
Definition Update (env : Env) (zone_text : string) (kr : Keyring) : result UpdateMessage :=
  z <-! name_from_text env zone_text (Some root) ;;
  Ok (mkUpdate z kr
        (mkMessage (random_id env) (UPDATE * 2048) [mkQuestion z SOA IN] [] [] [])).

Definition append_update (u : UpdateMessage) (r : RR) : UpdateMessage :=
  let m := message u in
  mkUpdate (origin u) (keyring u)
    (mkMessage (id m) (flags m) (zone m) (prerequisite m) (update m ++ [r]) (additional m)).

(** "Delete an RRset" of RFC 2136, section 2.5.2: class ANY, TTL 0, no
    data. *)
Definition delete_rrset (name : Name) (rdtype : Z) : RR := mkRR name ANY rdtype 0 [].

(** "Add to an RRset" of RFC 2136, section 2.5.1, in the zone's class. *)
Definition add_rr (name : Name) (rdtype : Z) (ttl : Z) (rdata : list byte) : RR :=
  mkRR name IN rdtype ttl rdata.

(** Modelled from the spec: [update.replace(name, ttl, "A", address)]
    (dnspython, not under src/), "one RRset-replace action: delete any
    existing A records for hostname within zone, then add one A record
    with the given TTL and address". *)
Definition replace (env : Env) (u : UpdateMessage) (name : string) (ttl : Z)
  (address : string) : result UpdateMessage :=
  n <-! name_from_text env name None ;;
  rd <-! inet_aton address ;;
  Ok (append_update (append_update u (delete_rrset n A)) (add_rr n A ttl rd)).

(** Modelled from the spec: serialising the update message (dnspython's
    [to_wire], not under src/) in the RFC 1035 message format.  The TSIG
    record a signing transport appends is a keyed hash of these bytes
    and is left out. *)
Definition update_to_wire (u : UpdateMessage) : option (list byte) :=
  to_wire (origin u) (message u).

Fixpoint name_eqb (n1 n2 : Name) : bool :=
  match n1, n2 with
  | [], [] => true
  | l1 :: r1, l2 :: r2 => String.eqb l1 l2 && name_eqb r1 r2
  | _, _ => false
  end.

(** What a decoded update section says, when it is one RRset-replace:
    the name, the TTL and the four address bytes of the single record
    that replaces the A records of that name. *)
Definition as_replace (m : Message) : option (Name * Z * list byte) :=
  match update m with
  | [d; a] =>
      if (Z.eqb (rr_class d) ANY && Z.eqb (rr_type d) A && Z.eqb (rr_ttl d) 0
          && (List.length (rr_rdata d) =? 0)%nat
          && Z.eqb (rr_class a) IN && Z.eqb (rr_type a) A
          && (List.length (rr_rdata a) =? 4)%nat
          && name_eqb (rr_name d) (rr_name a))%bool
      then Some (rr_name a, rr_ttl a, rr_rdata a)
      else None
  | _ => None
  end.

Fixpoint no_empty_inner (parts : list string) : bool :=
  match parts with
  | [] => true
  | [_] => true
  | p :: r => negb (String.eqb p "") && no_empty_inner r
  end.

(** Labels of a text without escapes: the parts between dots; an empty
    part in front of another one is the [EmptyLabel] error. *)
Definition plain_labels (text : string) : result (list string) :=
  if String.eqb text "" then Ok []
  else if String.eqb text "." then Ok [""]
  else
    let parts := PyStr.split "." text in
    if no_empty_inner parts then Ok parts else Err (DNSException "SyntaxError").

End Builder.

(* ================================================================= *)
(** ** Configuration, [main] and the script body *)

Record TSIGKey : Type := mkKey
  { name : string; algorithm : string; secret : string }.

Record Config : Type := mkConfig
  { tsig : list TSIGKey;
    name_server : name_server_value;
    zone : string;
    hostname : string;
    ttl : Z;
    timeout : Z;
    protocol : string;
    interface : option string;
    log_level : string }.

(** The field defaults of [class Config]. *)
Definition default_config : Config :=
  mkConfig [] NsNone "" "" 3600 5 "udp" None "info".

(** The options of a command line, and the namespace [parse_args]
    returns.  [arg_help] says that [-h] or [--help] was typed; the parser
    reads the command line from left to right and ends the run when it
    meets that option, so the other fields then hold the options typed
    before it. *)
Record Args : Type := mkArgs
  { arg_name_server : option string;
    arg_zone : option string;
    arg_hostname : option string;
    arg_ttl : option Z;
    arg_timeout : option Z;
    arg_protocol : option string;
    arg_interface : option string;
    arg_log_level : option string;
    arg_tsig_name : option string;
    arg_tsig_algorithm : option string;
    arg_tsig_secret : option string;
    arg_help : bool }.

Definition nl : string := String (ascii_of_nat 10) EmptyString.

Module Main.

Local Open Scope list_scope.

Definition default {X : Type} (d : X) (o : option X) : option X :=
  match o with
  | Some x => Some x
  | None => Some d
  end.

(** [choices=[...]]: a value outside the list ends the run with
    argparse's status 2. *)
Definition choice (choices : list string) (o : option string) : M unit :=
  match o with
  | Some x => if PyStr.mem x choices then ret tt else sys_exit 2
  | None => ret tt
  end.

(** [parse_args], from the options as typed (integers already
    converted by [type=int]).  An option the parser reads with a value
    outside its choices ends the run with status 2; the help option the
    parser adds by itself ends it with status 0 when the parser gets to
    it. *)
Definition parse_args (argv : Args) : M Args :=
  choice ["tcp"; "udp"] (arg_protocol argv) ;;;
  choice ["info"; "debug"] (arg_log_level argv) ;;;
  choice ["hmac-sha256"; "hmac-sha384"; "hmac-sha512"] (arg_tsig_algorithm argv) ;;;
  when (arg_help argv) (sys_exit 0) ;;;
  ret (mkArgs (arg_name_server argv) (arg_zone argv) (arg_hostname argv)
         (default 300 (arg_ttl argv)) (default 5 (arg_timeout argv))
         (default "udp"%string (arg_protocol argv)) (arg_interface argv)
         (default "info"%string (arg_log_level argv)) (arg_tsig_name argv)
         (default "hmac-sha256"%string (arg_tsig_algorithm argv))
         (arg_tsig_secret argv) false).

Definition or_else {X : Type} (o : option X) (x : X) : X :=
  match o with
  | Some y => y
  | None => x
  end.

(** The assignments under [if args.<field> is not None]. *)
Definition override (config : Config) (args : Args) : Config :=
  mkConfig
    (match arg_tsig_name args, arg_tsig_secret args with
     | Some n, Some s =>
         tsig config ++ [mkKey n (or_else (arg_tsig_algorithm args) "hmac-sha256"%string) s]
     | _, _ => tsig config
     end)
    (match arg_name_server args with
     | Some s => NsStr s
     | None => name_server config
     end)
    (or_else (arg_zone args) (zone config))
    (or_else (arg_hostname args) (hostname config))
    (or_else (arg_ttl args) (ttl config))
    (or_else (arg_timeout args) (timeout config))
    (or_else (arg_protocol args) (protocol config))
    (match arg_interface args with
     | Some i => Some i
     | None => interface config
     end)
    (or_else (arg_log_level args) (log_level config)).

(** [config.zone = f"{config.zone}." if not config.zone.endswith(".")
    else config.zone] *)
Definition normalise_zone (config : Config) : Config :=
  mkConfig (tsig config) (name_server config)
    (if negb (PyStr.endswith_dot (zone config)) then (zone config ++ ".")%string
     else zone config)
    (hostname config) (ttl config) (timeout config) (protocol config)
    (interface config) (log_level config).

(** [config.name_server is None or config.name_server == ""] *)
Definition name_server_missing (ns : name_server_value) : bool :=
  match ns with
  | NsNone => true
  | NsAddress _ => false
  | NsStr s => String.eqb s ""
  end.

(** [config.name_server.compressed] *)
Definition name_server_compressed (ns : name_server_value) : result string :=
  match ns with
  | NsAddress c => Ok c
  | NsStr _ => Err (AttributeError "compressed")
  | NsNone => Err (AttributeError "compressed")
  end.

(** [{key.name: (key.algorithm, key.secret) for key in config.tsig}] *)
Definition keyring_text (keys : list TSIGKey) : list (string * (string * string)) :=
  fold_left (fun d k => dict_set (name k) (algorithm k, secret k) d) keys [].

(** The checks at the head of [main]. *)
Definition check_config (config : Config) : M unit :=
  when (name_server_missing (name_server config))
    (log ERROR [Lit "未指定DNS服务器地址"] false ;;; sys_exit 1) ;;;
  when (String.eqb (zone config) "")
    (log ERROR [Lit "未指定DNS区域"] false ;;; sys_exit 1) ;;;
  when (String.eqb (hostname config) "")
    (log ERROR [Lit "未指定主机名"] false ;;; sys_exit 1) ;;;
  when (match tsig config with [] => true | _ :: _ => false end)
    (log ERROR [Lit "未指定TSIG密钥信息"] false ;;; sys_exit 1).

(** The transport call at the head of the [try]. *)
Definition send (env : Env) (config : Config) (update : DNS.UpdateMessage)
  : M DNS.Response :=
  if PyStr.mem (protocol config) (dir (dns_query env)) then
    match dict_get (protocol config) (dns_query env) with
    | Some query_executor =>
        where_ <- lift (name_server_compressed (name_server config)) ;;
        match query_executor with
        | Function f =>
            ([Call (protocol config) update where_ (timeout config)],
             match f update where_ (timeout config) with
             | Ok response => Returns response
             | Err e => Raises e
             end)
        | Other => raise (TypeError (protocol config))
        end
    | None => raise (AttributeError (protocol config))
    end
  else raise (ValueError ("不支持的协议: " ++ protocol config)).

(** The chain of comparisons on [response.rcode()]. *)
Definition classify (config : Config) (response : DNS.Response) : M unit :=
  let rcode := DNS.resp_rcode response in
  if rcode =? DNS.NOERROR then
    log INFO [Lit "DNS更新成功: id("; Hole (VInt (DNS.resp_id response)); Lit ")"] false
  else if rcode =? DNS.NXDOMAIN then
    log ERROR [Lit "DNS更新失败: 域名不存在，hostname: "; Hole (VStr (hostname config))] true
  else if rcode =? DNS.SERVFAIL then
    log ERROR [Lit "DNS更新失败: 服务失败，hostname: "; Hole (VStr (hostname config))] true
  else if rcode =? DNS.NOTAUTH then
    log ERROR [Lit "DNS更新失败: 未授权，hostname: "; Hole (VStr (hostname config))] true
  else if rcode =? DNS.NOTZONE then
    log ERROR [Lit "DNS更新失败: 非区域，hostname: "; Hole (VStr (hostname config))] true
  else if rcode =? DNS.REFUSED then
    log ERROR [Lit "DNS更新失败: 请求被拒绝，hostname: "; Hole (VStr (hostname config))] true
  else
    log ERROR [Lit "DNS更新失败: 更新过程出现未知错误 "; Hole (VRcode rcode); Lit nl;
               Hole (VResponse response)] true.

(** The [try] statement of [main]. *)
Definition submit (env : Env) (config : Config) (update : DNS.UpdateMessage) : M unit :=
  try_except_DNSException
    (response <- send env config update ;;
     classify config response ;;;
     log DEBUG [Lit "更新信息： "; Hole (VUpdate update); Lit ", DNS服务器： ";
                Hole (VNameServer (name_server config)); Lit " DNS响应: ";
                Hole (VRcode (DNS.resp_rcode response)); Lit nl;
                Hole (VResponse response)] false)
    (fun e =>
       log ERROR [Lit "DNS更新失败: "; Hole (VExn e)] true ;;;
       log DEBUG [Lit "更新信息: "; Hole (VUpdate update); Lit ", Hostname: ";
                  Hole (VStr (hostname config)); Lit ", DNS服务器: ";
                  Hole (VNameServer (name_server config))] false).

Definition main (env : Env) (config : Config) : M unit :=
  check_config config ;;;
  keyring <- lift (tsigkeyring_from_text env (keyring_text (tsig config))) ;;
  ip_address <- Resolver.get_interface_ip env (interface config) ;;
  match ip_address with
  | None =>
      log ERROR [Lit "无法从接口 "; Hole (VOptStr (interface config)); Lit " 获取IP地址"] false ;;;
      sys_exit 1
  | Some ip =>
      log INFO [Lit "正在更新DNS记录: "; Hole (VStr (hostname config)); Lit ".";
                Hole (VStr (zone config)); Lit " -> "; Hole (VAddr ip)] false ;;;
      update <- lift (Builder.Update env (zone config) keyring) ;;
      update <- lift (Builder.replace env update (hostname config) (ttl config)
                        (IPv4.compressed ip)) ;;
      submit env config update
  end.

(** The [pattern] of the field [zone], [^.+\.?$]: one or more
    characters, none of them a line feed. *)
Definition zone_pattern (zone : string) : bool :=
  negb (String.eqb zone "") && negb (PyStr.contains (ascii_of_nat 10) zone).

(** The [pattern] of [TSIGKey.algorithm]. *)
Definition key_validated (key : TSIGKey) : bool :=
  PyStr.mem (algorithm key) ["hmac-sha256"; "hmac-sha384"; "hmac-sha512"]%string.

(** The validation of the fields of [Config], defaults included: the
    patterns of [zone], [protocol], [log_level] and of the algorithm of
    every key, and a name server that is [None] or an address ([NsStr]
    stands for a text that is no address). *)
Definition validated (settings : Config) : bool :=
  forallb key_validated (tsig settings)
  && match name_server settings with
     | NsStr _ => false
     | NsNone | NsAddress _ => true
     end
  && zone_pattern (zone settings)
  && PyStr.mem (protocol settings) ["tcp"; "udp"]%string
  && PyStr.mem (log_level settings) ["info"; "debug"]%string.

(** [Config()]: the values the settings file gives for the fields, over
    the defaults of the class, validated; a field that fails makes the
    constructor raise. *)
Definition Config_init (settings : Config) : M Config :=
  if validated settings then ret settings else raise (ValidationError "Config").

(** The body under [if __name__ == "__main__"], from the options as
    typed and the field values of the settings file. *)
Definition script (env : Env) (settings : Config) (argv : Args) : M unit :=
  args <- parse_args argv ;;
  config <- Config_init settings ;;
  let config := normalise_zone (override config args) in
  main env config.

End Main.

(* ================================================================= *)
(** ** The vocabulary of the design document *)

Module Spec.

(** The reasons of a [Failure]. *)
Inductive Reason : Type :=
| NXDOMAIN
| SERVFAIL
| NOTAUTH
| NOTZONE
| REFUSED
| UnknownStatus (code : Z).

(** [UpdateOutcome], without the transport failures. *)
Inductive UpdateOutcome : Type :=
| Success (transactionId : Z)
| Failure (reason : Reason).

(** The response classification as the design document words it. *)
Definition classify (r : DNS.Response) : UpdateOutcome :=
  let c := DNS.resp_rcode r in
  if c =? DNS.NOERROR then Success (DNS.resp_id r)
  else if c =? DNS.NXDOMAIN then Failure NXDOMAIN
  else if c =? DNS.SERVFAIL then Failure SERVFAIL
  else if c =? DNS.NOTAUTH then Failure NOTAUTH
  else if c =? DNS.NOTZONE then Failure NOTZONE
  else if c =? DNS.REFUSED then Failure REFUSED
  else Failure (UnknownStatus c).

(** The outcome a log record stands for: the category is read off the
    level and the fixed text of the record, never off the interpolated
    values. *)
Definition read_outcome (ev : event) : option UpdateOutcome :=
  match ev with
  | Log INFO [Lit s; Hole (VInt i); Lit _] false =>
      if String.eqb s "DNS更新成功: id(" then Some (Success i) else None
  | Log ERROR [Lit s; Hole (VStr _)] true =>
      if String.eqb s "DNS更新失败: 域名不存在，hostname: " then Some (Failure NXDOMAIN)
      else if String.eqb s "DNS更新失败: 服务失败，hostname: " then Some (Failure SERVFAIL)
      else if String.eqb s "DNS更新失败: 未授权，hostname: " then Some (Failure NOTAUTH)
      else if String.eqb s "DNS更新失败: 非区域，hostname: " then Some (Failure NOTZONE)
      else if String.eqb s "DNS更新失败: 请求被拒绝，hostname: " then Some (Failure REFUSED)
      else None
  | Log ERROR [Lit s; Hole (VRcode c); Lit _; Hole (VResponse _)] true =>
      if String.eqb s "DNS更新失败: 更新过程出现未知错误 " then Some (Failure (UnknownStatus c))
      else None
  | _ => None
  end.

(** Number of transport calls in a trace. *)
Fixpoint calls (t : list event) : nat :=
  match t with
  | [] => 0
  | Call _ _ _ _ :: r => S (calls r)
  | Log _ _ _ :: r => calls r
  end.

(** An entry of an address list that psutil can produce: an [AF_INET]
    entry carries a dotted quad. *)
Definition well_formed (a : snicaddr) : bool :=
  if family_eqb (family a) AF_INET then
    match IPv4.IPv4Address (address a) with
    | Ok _ => true
    | Err _ => false
    end
  else true.

(** The address of an entry that is IPv4 and neither loopback, nor
    link-local, nor reserved. *)
Definition usable_ipv4 (a : snicaddr) : option IPv4.t :=
  if family_eqb (family a) AF_INET then
    match IPv4.IPv4Address (address a) with
    | Ok ip => if Resolver.usable ip then Some ip else None
    | Err _ => None
    end
  else None.

(** A name that matches the preference list whatever its case. *)
Definition matches_preference (name : string) : Prop :=
  exists alias, In alias Resolver.special_interfaces
                /\ PyStr.lower name = PyStr.lower alias.

(** The record [main] logs when the resolver came back empty-handed. *)
Definition no_address_record (config : Config) : event :=
  Log ERROR [Lit "无法从接口 "; Hole (VOptStr (interface config)); Lit " 获取IP地址"] false.

End Spec.

(* ================================================================= *)
(** ** Concrete runs *)

Module Examples.

(** A transport whose server answers every update with one status. *)
Definition answers (rcode : Z) : attr :=
  Function (fun u _ _ => Ok (DNS.mkResponse (DNS.id (DNS.message u)) rcode)).

(** A host with a loopback interface and a wireless one, and a
    [dns.query] namespace with its transports and one non-callable
    attribute. *)
Definition env : Env :=
  mkEnv
    (Ok [("lo", [mkAddr AF_INET "127.0.0.1"]);
         ("WLAN", [mkAddr AF_LINK "aa:bb:cc:dd:ee:ff";
                   mkAddr AF_INET "169.254.10.20";
                   mkAddr AF_INET "203.0.113.7";
                   mkAddr AF_INET "198.51.100.9"])])
    Builder.plain_labels
    (fun _ => Ok [])
    4660
    [("tcp", answers DNS.NOERROR);
     ("udp", answers DNS.NOERROR);
     ("tls", answers DNS.NOERROR);
     ("socket", Other)].

(** A host whose only interface has no usable address. *)
Definition env_loopback_only : Env :=
  mkEnv (Ok [("lo", [mkAddr AF_INET "127.0.0.1"; mkAddr AF_INET6 "::1"])])
    Builder.plain_labels (fun _ => Ok []) 4660 [("udp", answers DNS.NOERROR)].


(** Complete settings, as the settings file provides them. *)
Definition settings : Config :=
  mkConfig [mkKey "ddns-key" "hmac-sha256" "c2VjcmV0"] (NsAddress "192.0.2.53")
    "example.com." "host" 3600 5 "udp" None "info".

(** The same settings without a zone. *)
Definition settings_without_zone : Config :=
  mkConfig [mkKey "ddns-key" "hmac-sha256" "c2VjcmV0"] (NsAddress "192.0.2.53")
    "" "host" 3600 5 "udp" None "info".

(** The settings with another attribute of [dns.query] as protocol. *)
Definition settings_tls : Config :=
  mkConfig [mkKey "ddns-key" "hmac-sha256" "c2VjcmV0"] (NsAddress "192.0.2.53")
    "example.com." "host" 3600 5 "tls" None "info".

(** A command line without options, and one with [--ttl 0]. *)
Definition no_args : Args :=
  mkArgs None None None None None None None None None None None false.

Definition args_ttl_0 : Args :=
  mkArgs None None None (Some 0) None None None None None None None false.

(** The message [main] builds for [settings] on [env] with a TTL. *)
Definition update_with_ttl (ttl : Z) : DNS.UpdateMessage :=
  DNS.mkUpdate ["example"; "com"; ""] []
    (DNS.mkMessage 4660 10240
       [DNS.mkQuestion ["example"; "com"; ""] DNS.SOA DNS.IN] []
       [Builder.delete_rrset ["host"] DNS.A;
        Builder.add_rr ["host"] DNS.A ttl ["203"%byte; "000"%byte; "113"%byte; "007"%byte]]
       []).

End Examples.

(* ================================================================= *)
(** ** Logging set-up *)

Module Logging.

(** [level_map] of [setup_logging]. *)
Definition level_map : list (string * level) := [("info", INFO); ("debug", DEBUG)].

(** [setup_logging]: the level handed to [logging.basicConfig],
    [level_map.get(log_level.lower(), logging.INFO)]. *)
Definition setup_logging (log_level : string) : level :=
  match dict_get (PyStr.lower log_level) level_map with
  | Some l => l
  | None => INFO
  end.

End Logging.

(* ================================================================= *)
(** ** The records of [main], by name *)

Module Records.

(** The record of the resolver for an exception of its body. *)
Definition resolver_record (e : exn) : event :=
  Log ERROR [Lit "获取接口IP地址失败: "; Hole (VExn e)] false.

(** The record [main] logs before it builds the update. *)
Definition announce_record (config : Config) (ip : IPv4.t) : event :=
  Log INFO [Lit "正在更新DNS记录: "; Hole (VStr (hostname config)); Lit ".";
            Hole (VStr (zone config)); Lit " -> "; Hole (VAddr ip)] false.

(** The texts of the four checks of [main]. *)
Definition no_name_server : string := "未指定DNS服务器地址".
Definition no_zone : string := "未指定DNS区域".
Definition no_hostname : string := "未指定主机名".
Definition no_keys : string := "未指定TSIG密钥信息".

End Records.

(* ================================================================= *)
(** ** More concrete runs *)

Module Scenarios.

(** A host whose first candidate of the heuristic has only a link-local
    address, while a later candidate has a public one. *)
Definition env_two_candidates : Env :=
  mkEnv
    (Ok [("lo", [mkAddr AF_INET "127.0.0.1"]);
         ("WLAN", [mkAddr AF_LINK "aa:bb:cc:dd:ee:ff"; mkAddr AF_INET "169.254.10.20"]);
         ("Ethernet", [mkAddr AF_INET "192.0.2.10"])])
    Builder.plain_labels (fun _ => Ok []) 4660
    [("tcp", Examples.answers DNS.NOERROR); ("udp", Examples.answers DNS.NOERROR)].

(** A command line with [--name-server 192.0.2.53] only. *)
Definition args_name_server : Args :=
  mkArgs (Some "192.0.2.53") None None None None None None None None None None false.

(** A command line with a TSIG key named like the key of the settings. *)
Definition args_same_key : Args :=
  mkArgs None None None None None None None None
    (Some "ddns-key") (Some "hmac-sha512") (Some "b3RoZXI=") false.

(** A command line with [--protocol sctp] and one with
    [--log-level debug]. *)
Definition args_sctp : Args :=
  mkArgs None None None None None (Some "sctp") None None None None None false.

Definition args_debug : Args :=
  mkArgs None None None None None None None (Some "debug") None None None false.

(** A command line with [--zone ''] only, and one with [--help]. *)
Definition args_empty_zone : Args :=
  mkArgs None (Some "") None None None None None None None None None false.

Definition args_help : Args :=
  mkArgs None None None None None None None None None None None true.

(** A command line with [--zone example.com.] only. *)
Definition args_zone : Args :=
  mkArgs None (Some "example.com.") None None None None None None None None None false.

(** Settings without a name server. *)
Definition settings_without_name_server : Config :=
  mkConfig [mkKey "ddns-key" "hmac-sha256" "c2VjcmV0"] NsNone
    "example.com." "host" 3600 5 "udp" None "info".

(** The settings with other values for the TTL, the timeout, the
    protocol and the log level. *)
Definition settings_other_defaults : Config :=
  mkConfig [mkKey "ddns-key" "hmac-sha256" "c2VjcmV0"] (NsAddress "192.0.2.53")
    "example.com." "host" 60 30 "tcp" None "debug".

End Scenarios.

(* ================================================================= *)
(** * Properties *)

Local Open Scope list_scope.

(** ** Sequencing *)

Lemma bind_returns {A B : Type} (t : list event) (a : A) (k : A -> M B) :
  bind (t, Returns a) k = ((t ++ fst (k a))%list, snd (k a)).
Proof. unfold bind. destruct (k a); reflexivity. Qed.

Lemma bind_ret_l {A B : Type} (a : A) (k : A -> M B) : bind (ret a) k = k a.
Proof. unfold bind, ret. destruct (k a); reflexivity. Qed.

Lemma bind_exits {A B : Type} (t : list event) (c : Z) (k : A -> M B) :
  bind (t, Exits c) k = (t, Exits c).
Proof. reflexivity. Qed.

Lemma bind_raises {A B : Type} (t : list event) (e : exn) (k : A -> M B) :
  bind (t, Raises e) k = (t, Raises e).
Proof. reflexivity. Qed.

(** ** The address resolver *)

Section ResolverFacts.

Import Resolver.

Lemma dict_get_absent {V : Type} (k : string) (d : list (string * V)) :
  ~ In k (map fst d) -> dict_get k d = None.
Proof.
  induction d as [|[k' v] d IH]; simpl; intros H; [reflexivity|].
  destruct (String.eqb_spec k k') as [->|Hne].
  - exfalso. apply H. now left.
  - apply IH. intros Hin. apply H. now right.
Qed.

Lemma dict_get_present {V : Type} (k : string) (d : list (string * V)) :
  In k (map fst d) -> exists v, dict_get k d = Some v.
Proof.
  induction d as [|[k' v] d IH]; simpl; intros H; [contradiction|].
  destruct (String.eqb_spec k k') as [->|Hne]; [now exists v|].
  destruct H as [H|H]; [congruence|now apply IH].
Qed.

Lemma first_usable_skip (pre rest : list snicaddr) :
  forallb Spec.well_formed pre = true ->
  (forall b, In b pre -> Spec.usable_ipv4 b = None) ->
  first_usable (pre ++ rest) = first_usable rest.
Proof.
  induction pre as [|b pre IH]; simpl; intros Hwf Hskip; [reflexivity|].
  apply andb_true_iff in Hwf as [Hb Hwf].
  assert (Hu := Hskip b (or_introl eq_refl)).
  unfold Spec.well_formed in Hb. unfold Spec.usable_ipv4 in Hu.
  destruct (family_eqb (family b) AF_INET).
  - destruct (IPv4.IPv4Address (address b)) as [ip|e]; [|discriminate]. simpl.
    destruct (usable ip); [discriminate|].
    apply IH; [exact Hwf|]. intros c Hc. apply Hskip. now right.
  - apply IH; [exact Hwf|]. intros c Hc. apply Hskip. now right.
Qed.

Lemma first_usable_hit (a : snicaddr) (post : list snicaddr) (ip : IPv4.t) :
  Spec.usable_ipv4 a = Some ip -> first_usable (a :: post) = Ok (Some ip).
Proof.
  unfold Spec.usable_ipv4. simpl.
  destruct (family_eqb (family a) AF_INET); [|discriminate].
  destruct (IPv4.IPv4Address (address a)) as [ip'|e]; [|discriminate]. simpl.
  destruct (usable ip'); [|discriminate]. now intros [= ->].
Qed.

Lemma first_special_first (pre post : enumeration) (n : string) (addrs : list snicaddr) :
  (forall n' a', In (n', a') pre -> PyStr.mem (PyStr.lower n') special_interfaces = false) ->
  PyStr.mem (PyStr.lower n) special_interfaces = true ->
  first_special (pre ++ (n, addrs) :: post) = Some addrs.
Proof.
  induction pre as [|[n' a'] pre IH]; simpl; intros Hpre Hn.
  - now rewrite Hn.
  - rewrite (Hpre n' a' (or_introl eq_refl)). apply IH; [|exact Hn].
    intros n2 a2 H2. apply (Hpre n2 a2). now right.
Qed.

Lemma first_special_none (enum : enumeration) :
  (forall n a, In (n, a) enum -> PyStr.mem (PyStr.lower n) special_interfaces = false) ->
  first_special enum = None.
Proof.
  induction enum as [|[n a] enum IH]; simpl; intros H; [reflexivity|].
  rewrite (H n a (or_introl eq_refl)). apply IH.
  intros n2 a2 H2. apply (H n2 a2). now right.
Qed.

Lemma mem_In (x : string) (xs : list string) : PyStr.mem x xs = true <-> In x xs.
Proof.
  induction xs as [|y xs IH]; simpl; [split; [discriminate|contradiction]|].
  destruct (String.eqb_spec x y) as [->|Hne].
  - split; auto.
  - rewrite IH. split; [now right|]. intros [H|H]; [congruence|exact H].
Qed.

Lemma special_lower (alias : string) :
  In alias special_interfaces -> PyStr.lower alias = alias.
Proof.
  unfold special_interfaces. simpl.
  intros [<-|[<-|[<-|[]]]]; reflexivity.
Qed.

Lemma matches_preference_iff (n : string) :
  Spec.matches_preference n <-> PyStr.mem (PyStr.lower n) special_interfaces = true.
Proof.
  rewrite mem_In. split.
  - intros (alias & Hin & Heq). rewrite Heq, (special_lower _ Hin). exact Hin.
  - intros Hin. exists (PyStr.lower n). split; [exact Hin|].
    symmetry. now apply special_lower.
Qed.

End ResolverFacts.

Section ResolverClaims.

Import Resolver.

Lemma IPv4Address_error (s : string) (e : exn) :
  IPv4.IPv4Address s = Err e -> e = AddressValueError s.
Proof.
  unfold IPv4.IPv4Address. destruct s as [|c s]; [now intros [= <-]|].
  repeat match goal with
         | |- context [match ?x with _ => _ end] => destruct x
         end; intros H; now inversion H.
Qed.

Lemma first_usable_error (netif : list snicaddr) (e : exn) :
  first_usable netif = Err e -> exists a, e = AddressValueError a.
Proof.
  induction netif as [|b netif IH]; simpl; [discriminate|].
  destruct (family_eqb (family b) AF_INET); [|exact IH].
  destruct (IPv4.IPv4Address (address b)) as [ip|e'] eqn:Hp; simpl.
  - destruct (usable ip); [discriminate|exact IH].
  - intros [= <-]. exists (address b). exact (IPv4Address_error _ _ Hp).
Qed.

Lemma get_interface_ip_ok (env : Env) (interface_name : option string) (r : option IPv4.t) :
  body env interface_name = Ok r ->
  get_interface_ip env interface_name = ([], Returns r).
Proof. unfold get_interface_ip. now intros ->. Qed.

Lemma get_interface_ip_err (env : Env) (interface_name : option string) (e : exn) :
  body env interface_name = Err e ->
  get_interface_ip env interface_name
  = ([Log ERROR [Lit "获取接口IP地址失败: "; Hole (VExn e)] false], Returns None).
Proof. unfold get_interface_ip. now intros ->. Qed.

(** C3. Within the address list of the chosen interface, the resolver
    returns the first entry, in list order, that is an IPv4 address and
    neither loopback, nor link-local, nor reserved; when the list has no
    such entry it returns [None] without having raised anything, which
    is how the resolver reports that no address is usable. *)
Theorem resolve_first_usable_address
  (env : Env) (interface_name : option string) (enum : enumeration)
  (netif : list snicaddr) :
  net_if_addrs env = Ok enum ->
  select_netif interface_name enum = Ok netif ->
  (forall pre a post ip,
      netif = pre ++ a :: post ->
      forallb Spec.well_formed pre = true ->
      (forall b, In b pre -> Spec.usable_ipv4 b = None) ->
      Spec.usable_ipv4 a = Some ip ->
      get_interface_ip env interface_name = ([], Returns (Some ip)))
  /\ (forallb Spec.well_formed netif = true ->
      (forall b, In b netif -> Spec.usable_ipv4 b = None) ->
      get_interface_ip env interface_name = ([], Returns None)).
Proof.
  intros Henum Hsel. split.
  - intros pre a post ip -> Hwf Hskip Ha.
    apply get_interface_ip_ok. unfold body. rewrite Henum. simpl.
    rewrite Hsel. simpl.
    rewrite (first_usable_skip pre (a :: post) Hwf Hskip).
    now apply first_usable_hit.
  - intros Hwf Hskip.
    apply get_interface_ip_ok. unfold body. rewrite Henum. simpl.
    rewrite Hsel. simpl.
    rewrite <- (app_nil_r netif).
    now rewrite (first_usable_skip netif [] Hwf Hskip).
Qed.

(** C4. A supplied interface name that is absent from the enumeration
    makes the resolver fail with the record of its own [ValueError]
    ("interface not found"), whatever other interfaces are enumerated;
    no enumeration that does hold the name ever produces that
    outcome. *)
Theorem absent_interface_not_found (env : Env) (enum : enumeration) (name : string) :
  net_if_addrs env = Ok enum ->
  ~ In name (map fst enum) ->
  get_interface_ip env (Some name)
  = ([Log ERROR [Lit "获取接口IP地址失败: ";
                 Hole (VExn (ValueError ("找不到接口: " ++ name)%string))] false],
     Returns None)
  /\ (forall env' enum',
         net_if_addrs env' = Ok enum' ->
         In name (map fst enum') ->
         get_interface_ip env' (Some name) <> get_interface_ip env (Some name)).
Proof.
  intros Henum Habs.
  assert (Hres : get_interface_ip env (Some name)
                 = ([Log ERROR [Lit "获取接口IP地址失败: ";
                                Hole (VExn (ValueError ("找不到接口: " ++ name)%string))] false],
                    Returns None)).
  { apply get_interface_ip_err. unfold body. rewrite Henum. simpl.
    now rewrite (dict_get_absent name enum Habs). }
  split; [exact Hres|].
  intros env' enum' Henum' Hin. rewrite Hres.
  destruct (dict_get_present name enum' Hin) as [addrs Hget].
  unfold get_interface_ip, body. rewrite Henum'. simpl. rewrite Hget. simpl.
  destruct (first_usable addrs) as [r|e] eqn:Hfu.
  - unfold ret. discriminate.
  - destruct (first_usable_error addrs e Hfu) as [a ->].
    unfold log, bind, ret. simpl. discriminate.
Qed.

End ResolverClaims.

(** ** [main] up to the exchange *)

Section MainFacts.

Import Resolver Main.

Lemma check_config_cases (config : Config) :
  check_config config = ([], Returns tt)
  \/ exists msg, check_config config = ([Log ERROR [Lit msg] false], Exits 1).
Proof.
  unfold check_config, when.
  destruct (name_server_missing (name_server config)); [right; now eexists|].
  destruct (String.eqb (zone config) ""); [right; now eexists|].
  destruct (String.eqb (hostname config) ""); [right; now eexists|].
  destruct (tsig config); [right; now eexists|].
  now left.
Qed.

Lemma get_interface_ip_total (env : Env) (interface_name : option string) :
  exists t r, get_interface_ip env interface_name = (t, Returns r)
              /\ Spec.calls t = 0%nat.
Proof.
  unfold get_interface_ip.
  destruct (body env interface_name) as [r|e].
  - now exists [], r.
  - now eexists _, None.
Qed.

(** Whatever made the resolver return [None], [main] adds one and the
    same record and leaves with status 1. *)
Lemma main_aborts_on_None (env : Env) (config : Config) (kr : DNS.Keyring) (t : list event) :
  check_config config = ([], Returns tt) ->
  tsigkeyring_from_text env (keyring_text (tsig config)) = Ok kr ->
  get_interface_ip env (interface config) = (t, Returns None) ->
  main env config = (t ++ [Spec.no_address_record config], Exits 1).
Proof.
  intros Hc Hk Hg. unfold main.
  rewrite Hc. change (@nil event, Returns tt) with (ret tt). rewrite bind_ret_l.
  rewrite Hk. simpl lift. rewrite bind_ret_l.
  rewrite Hg. rewrite bind_returns. reflexivity.
Qed.

(** When the resolver returns [None], [main] ends without a transport
    call and without returning normally. *)
Lemma main_without_address (env : Env) (config : Config) (t : list event) :
  get_interface_ip env (interface config) = (t, Returns None) ->
  Spec.calls (fst (main env config)) = 0%nat
  /\ snd (main env config) <> Returns tt.
Proof.
  intros Hg.
  assert (Ht : Spec.calls t = 0%nat).
  { destruct (get_interface_ip_total env (interface config)) as (t' & r & E & Hc).
    rewrite Hg in E. now inversion E. }
  unfold main.
  destruct (check_config_cases config) as [Hc|[msg Hc]]; rewrite Hc.
  - change (@nil event, Returns tt) with (ret tt). rewrite bind_ret_l.
    destruct (tsigkeyring_from_text env (keyring_text (tsig config))) as [kr|e].
    + simpl lift. rewrite bind_ret_l. rewrite Hg, bind_returns. simpl.
      split; [|discriminate].
      clear Hg. induction t as [|[l m x|a q w o] t IH]; simpl in *; auto; discriminate.
    + simpl. split; [reflexivity|discriminate].
  - simpl. split; [reflexivity|discriminate].
Qed.

End MainFacts.

Section HeuristicClaims.

Import Resolver Main.

(** C5. With no interface name, the resolver walks the enumeration in
    order and takes the first interface whose name, compared without
    regard to case, is on the preference list; when no name is on the
    list the resolver fails and [main] leaves with status 1 and no
    transport call, whatever addresses the interfaces carry. *)
Theorem heuristic_first_match (env : Env) (enum : enumeration) :
  net_if_addrs env = Ok enum ->
  (forall pre n addrs post,
      enum = pre ++ (n, addrs) :: post ->
      (forall n' a', In (n', a') pre -> ~ Spec.matches_preference n') ->
      Spec.matches_preference n ->
      select_netif None enum = Ok addrs
      /\ body env None = first_usable addrs)
  /\ ((forall n a, In (n, a) enum -> ~ Spec.matches_preference n) ->
      get_interface_ip env None
      = ([Log ERROR [Lit "获取接口IP地址失败: ";
                     Hole (VExn (UnboundLocalError "netif"))] false],
         Returns None)
      /\ forall config,
          interface config = None ->
          Spec.calls (fst (main env config)) = 0%nat
          /\ snd (main env config) <> Returns tt
          /\ (forall kr,
                 check_config config = ([], Returns tt) ->
                 tsigkeyring_from_text env (keyring_text (tsig config)) = Ok kr ->
                 main env config
                 = ([Log ERROR [Lit "获取接口IP地址失败: ";
                                Hole (VExn (UnboundLocalError "netif"))] false;
                     Spec.no_address_record config],
                    Exits 1))).
Proof.
  intros Henum. split.
  - intros pre n addrs post -> Hpre Hn.
    assert (Hsel : select_netif None (pre ++ (n, addrs) :: post) = Ok addrs).
    { unfold select_netif. rewrite (first_special_first pre post n addrs); [reflexivity| |].
      - intros n' a' Hin. specialize (Hpre n' a' Hin).
        rewrite matches_preference_iff in Hpre.
        now destruct (PyStr.mem (PyStr.lower n') special_interfaces).
      - now apply matches_preference_iff. }
    split; [exact Hsel|].
    unfold body. rewrite Henum. cbn [rbind]. now rewrite Hsel.
  - intros Hnone.
    assert (Hres : get_interface_ip env None
                   = ([Log ERROR [Lit "获取接口IP地址失败: ";
                                  Hole (VExn (UnboundLocalError "netif"))] false],
                      Returns None)).
    { apply get_interface_ip_err. unfold body. rewrite Henum. simpl.
      rewrite first_special_none; [reflexivity|].
      intros n a Hin. specialize (Hnone n a Hin).
      rewrite matches_preference_iff in Hnone.
      now destruct (PyStr.mem (PyStr.lower n) special_interfaces). }
    split; [exact Hres|].
    intros config Hi. rewrite <- Hi in Hres.
    destruct (main_without_address env config _ Hres) as [H0 H1].
    repeat split; [exact H0|exact H1|].
    intros kr Hc Hk.
    now rewrite (main_aborts_on_None env config kr _ Hc Hk Hres).
Qed.

(** C10. [get_interface_ip] never lets an exception out and never ends
    the run itself: it always returns, and it returns [None] when the
    enumeration raises, when the named interface is absent and when no
    name matches the heuristic, as for every other exception of its
    body.  On [None] the caller logs one fixed record and leaves with
    status 1, whichever failure it was. *)
Theorem get_interface_ip_catches_everything (env : Env) (interface_name : option string) :
  (exists t r, get_interface_ip env interface_name = (t, Returns r))
  /\ (forall e, body env interface_name = Err e ->
                get_interface_ip env interface_name
                = ([Log ERROR [Lit "获取接口IP地址失败: "; Hole (VExn e)] false],
                   Returns None))
  /\ (forall e, net_if_addrs env = Err e -> body env interface_name = Err e)
  /\ (forall enum name,
         net_if_addrs env = Ok enum -> interface_name = Some name ->
         ~ In name (map fst enum) ->
         body env interface_name = Err (ValueError ("找不到接口: " ++ name)%string))
  /\ (forall enum,
         net_if_addrs env = Ok enum -> interface_name = None ->
         (forall n a, In (n, a) enum -> ~ Spec.matches_preference n) ->
         body env interface_name = Err (UnboundLocalError "netif"))
  /\ (forall config kr t,
         interface config = interface_name ->
         check_config config = ([], Returns tt) ->
         tsigkeyring_from_text env (keyring_text (tsig config)) = Ok kr ->
         get_interface_ip env interface_name = (t, Returns None) ->
         main env config = (t ++ [Spec.no_address_record config], Exits 1)).
Proof.
  split; [|split; [|split; [|split; [|split]]]].
  - destruct (get_interface_ip_total env interface_name) as (t & r & E & _).
    now exists t, r.
  - intros e. apply get_interface_ip_err.
  - intros e He. unfold body. now rewrite He.
  - intros enum name He -> Habs. unfold body. rewrite He. simpl.
    now rewrite (dict_get_absent name enum Habs).
  - intros enum He -> Hnone. unfold body. rewrite He. simpl.
    rewrite first_special_none; [reflexivity|].
    intros n a Hin. specialize (Hnone n a Hin).
    rewrite matches_preference_iff in Hnone.
    now destruct (PyStr.mem (PyStr.lower n) special_interfaces).
  - intros config kr t <- Hc Hk Hg. now apply (main_aborts_on_None env config kr).
Qed.

End HeuristicClaims.

(** ** The exchange: dispatch, classification, failures *)

Section ExchangeFacts.

Import Main.

Lemma calls_app (t1 t2 : list event) :
  Spec.calls (t1 ++ t2) = (Spec.calls t1 + Spec.calls t2)%nat.
Proof.
  induction t1 as [|[l m x|a q w o] t1 IH]; simpl; auto.
Qed.

Lemma dict_get_dir {V : Type} (k : string) (d : list (string * V)) (v : V) :
  dict_get k d = Some v -> PyStr.mem k (dir d) = true.
Proof.
  unfold dir. induction d as [|[k' v'] d IH]; simpl; [discriminate|].
  destruct (String.eqb k k'); [reflexivity|exact IH].
Qed.

Lemma not_in_dir {V : Type} (k : string) (d : list (string * V)) :
  ~ In k (dir d) -> PyStr.mem k (dir d) = false.
Proof.
  intros H. destruct (PyStr.mem k (dir d)) eqn:E; [|reflexivity].
  now apply mem_In in E.
Qed.

(** The transport call when the protocol names a function of the
    module. *)
Lemma send_function (env : Env) (config : Config) (update : DNS.UpdateMessage)
  (f : DNS.UpdateMessage -> string -> Z -> result DNS.Response) (w : string) :
  dict_get (protocol config) (dns_query env) = Some (Function f) ->
  name_server config = NsAddress w ->
  send env config update
  = ([Call (protocol config) update w (timeout config)],
     match f update w (timeout config) with
     | Ok response => Returns response
     | Err e => Raises e
     end).
Proof.
  intros Hget Hns. unfold send.
  rewrite (dict_get_dir _ _ _ Hget), Hget, Hns. simpl.
  now destruct (f update w (timeout config)).
Qed.

Lemma classify_one_record (config : Config) (response : DNS.Response) :
  exists ev, classify config response = ([ev], Returns tt)
             /\ Spec.read_outcome ev = Some (Spec.classify response).
Proof.
  unfold classify, Spec.classify.
  repeat match goal with
         | |- context [if ?c then _ else _] => destruct c
         end; eexists; split; reflexivity.
Qed.

Lemma send_calls (env : Env) (config : Config) (update : DNS.UpdateMessage) :
  (Spec.calls (fst (send env config update)) <= 1)%nat.
Proof.
  unfold send.
  destruct (PyStr.mem _ _); [|simpl; lia].
  destruct (dict_get _ _) as [[f|]|]; try (simpl; lia);
    destruct (name_server_compressed _); simpl; lia.
Qed.

Lemma submit_calls (env : Env) (config : Config) (update : DNS.UpdateMessage) :
  (Spec.calls (fst (submit env config update)) <= 1)%nat.
Proof.
  assert (Hs := send_calls env config update).
  unfold submit, try_except_DNSException.
  destruct (send env config update) as [t [r|c|e]]; simpl in *.
  - destruct (classify_one_record config r) as (ev & -> & Hev).
    simpl. rewrite calls_app. simpl.
    destruct ev; simpl in *; [lia|discriminate].
  - exact Hs.
  - destruct (is_DNSException e); simpl; [|exact Hs].
    rewrite calls_app. simpl. lia.
Qed.

(** What [parse_args] returns, when it returns. *)
Lemma parse_args_returns (argv args : Args) (t : list event) :
  parse_args argv = (t, Returns args) ->
  t = []
  /\ args = mkArgs (arg_name_server argv) (arg_zone argv) (arg_hostname argv)
              (Some (or_else (arg_ttl argv) 300)) (Some (or_else (arg_timeout argv) 5))
              (Some (or_else (arg_protocol argv) "udp"%string)) (arg_interface argv)
              (Some (or_else (arg_log_level argv) "info"%string)) (arg_tsig_name argv)
              (Some (or_else (arg_tsig_algorithm argv) "hmac-sha256"%string))
              (arg_tsig_secret argv) false
  /\ PyStr.mem (or_else (arg_protocol argv) "udp"%string) ["tcp"; "udp"]%string = true
  /\ PyStr.mem (or_else (arg_log_level argv) "info"%string) ["info"; "debug"]%string = true
  /\ arg_help argv = false.
Proof.
  unfold parse_args, choice, when.
  destruct (arg_protocol argv) as [p|];
    [destruct (PyStr.mem p _) eqn:Hp; [|simpl; discriminate]|];
    rewrite bind_ret_l;
    (destruct (arg_log_level argv) as [l|];
     [destruct (PyStr.mem l _) eqn:Hl; [|simpl; discriminate]|]);
    rewrite bind_ret_l;
    (destruct (arg_tsig_algorithm argv) as [a|];
     [destruct (PyStr.mem a _); [|simpl; discriminate]|]);
    rewrite bind_ret_l;
    (destruct (arg_help argv); [simpl; discriminate|]);
    rewrite bind_ret_l; intros [= <- <-];
    (split; [reflexivity|]);
    (split; [destruct (arg_ttl argv), (arg_timeout argv); reflexivity|]);
    simpl or_else; auto.
Qed.

(** The three ways [parse_args] can go. *)
Lemma parse_args_cases (argv : Args) :
  parse_args argv = ([], Exits 2)
  \/ (parse_args argv = ([], Exits 0) /\ arg_help argv = true)
  \/ exists args, parse_args argv = ([], Returns args)
                  /\ arg_ttl args = Some (or_else (arg_ttl argv) 300).
Proof.
  unfold parse_args, choice, when.
  destruct (arg_protocol argv) as [p|];
    [destruct (PyStr.mem p _); [|now left]|];
    rewrite bind_ret_l;
    (destruct (arg_log_level argv) as [l|];
     [destruct (PyStr.mem l _); [|now left]|]);
    rewrite bind_ret_l;
    (destruct (arg_tsig_algorithm argv) as [a|];
     [destruct (PyStr.mem a _); [|now left]|]);
    rewrite bind_ret_l;
    (destruct (arg_help argv); [right; left; now split|]);
    rewrite bind_ret_l; right; right; eexists; (split; [reflexivity|]);
    simpl; now destruct (arg_ttl argv).
Qed.

End ExchangeFacts.

Section ExchangeClaims.

Import Main.

(** C1. For every response the server gives, the engine logs exactly
    one classification record between the transport call and the debug
    record, and the category of the design document can be read back
    from that record: [Success] with the identifier of the response for
    NOERROR, one reason of its own for each of NXDOMAIN, SERVFAIL,
    NOTAUTH, NOTZONE and REFUSED, and the unknown-status reason with the
    numeric code for every other status. *)
Theorem response_classification
  (env : Env) (config : Config) (update : DNS.UpdateMessage)
  (f : DNS.UpdateMessage -> string -> Z -> result DNS.Response)
  (w : string) (r : DNS.Response) :
  dict_get (protocol config) (dns_query env) = Some (Function f) ->
  name_server config = NsAddress w ->
  f update w (timeout config) = Ok r ->
  exists ev dbg,
    submit env config update
    = ([Call (protocol config) update w (timeout config); ev; Log DEBUG dbg false],
       Returns tt)
    /\ classify config r = ([ev], Returns tt)
    /\ Spec.read_outcome ev = Some (Spec.classify r).
Proof.
  intros Hget Hns Hf.
  destruct (classify_one_record config r) as (ev & Hc & Hev).
  exists ev. eexists. split; [|split; [exact Hc|exact Hev]].
  unfold submit. rewrite (send_function env config update f w Hget Hns), Hf.
  rewrite bind_returns. simpl. rewrite Hc. reflexivity.
Qed.

(** C8, as the code has it.  The transport is found by looking the
    protocol string up among the attribute names of the module
    [dns.query].  A string that is no attribute name of the module makes
    [main] fail with the unsupported-protocol [ValueError] before any
    call; a name bound to a function is called as the transport,
    whatever the name; and the only values the command line lets
    through are [tcp] and [udp]. *)
Theorem transport_dispatch (env : Env) (config : Config) (update : DNS.UpdateMessage) :
  (~ In (protocol config) (dir (dns_query env)) ->
   submit env config update
   = ([], Raises (ValueError ("不支持的协议: " ++ protocol config)%string)))
  /\ (forall f w,
         dict_get (protocol config) (dns_query env) = Some (Function f) ->
         name_server config = NsAddress w ->
         send env config update
         = ([Call (protocol config) update w (timeout config)],
            match f update w (timeout config) with
            | Ok response => Returns response
            | Err e => Raises e
            end))
  /\ (forall settings argv t args,
         parse_args argv = (t, Returns args) ->
         protocol (normalise_zone (override settings args)) = "tcp"%string
         \/ protocol (normalise_zone (override settings args)) = "udp"%string).
Proof.
  split; [|split].
  - intros Hnot. unfold submit, send. now rewrite (not_in_dir _ _ Hnot).
  - intros f w. apply send_function.
  - intros settings argv t args Hp.
    apply parse_args_returns in Hp as (_ & -> & Hm & _).
    apply mem_In in Hm. simpl in Hm. cbn. intuition auto.
Qed.

End ExchangeClaims.

(** ** Whole runs *)

Section RunFacts.

Import Main.

Lemma calls_zero_no_call (t : list event) (p : string) (u : DNS.UpdateMessage)
  (w : string) (o : Z) :
  Spec.calls t = 0%nat -> ~ In (Call p u w o) t.
Proof.
  induction t as [|[l m x|a q w' o'] t IH]; simpl; intros H Hin.
  - exact Hin.
  - destruct Hin as [E|Hin]; [discriminate|now apply IH].
  - discriminate.
Qed.

Lemma send_trace (env : Env) (config : Config) (update : DNS.UpdateMessage) :
  fst (send env config update) = []
  \/ exists w, fst (send env config update)
               = [Call (protocol config) update w (timeout config)].
Proof.
  unfold send.
  destruct (PyStr.mem _ _); [|now left].
  destruct (dict_get _ _) as [[f|]|]; try (now left);
    destruct (name_server_compressed _) as [w|e]; simpl; try (now left).
  right. now exists w.
Qed.

(** A transport call of [submit] carries the message it was given. *)
Lemma submit_call_inv (env : Env) (config : Config) (update u : DNS.UpdateMessage)
  (p w : string) (o : Z) :
  In (Call p u w o) (fst (submit env config update)) ->
  u = update /\ p = protocol config /\ o = timeout config.
Proof.
  assert (Hsend : forall t, fst (send env config update) = t ->
                            In (Call p u w o) t ->
                            u = update /\ p = protocol config /\ o = timeout config).
  { intros t Ht Hin. destruct (send_trace env config update) as [E|[w' E]];
      rewrite E in Ht; subst t; simpl in Hin; [contradiction|].
    destruct Hin as [[= -> -> _ ->]|[]]. auto. }
  unfold submit, try_except_DNSException.
  destruct (send env config update) as [t [r|c|e]]; simpl in *.
  - destruct (classify_one_record config r) as (ev & -> & Hev). simpl.
    rewrite in_app_iff. simpl. intros [Hin|[E|[E|[]]]].
    + now apply (Hsend t).
    + subst ev. discriminate.
    + discriminate.
  - now apply Hsend.
  - destruct (is_DNSException e); simpl; [|now apply Hsend].
    rewrite in_app_iff. simpl. intros [Hin|[E|[E|[]]]]; try discriminate.
    now apply (Hsend t).
Qed.

(** A transport call of [main] carries the message built from the
    zone, the host name and the TTL of the configuration. *)
Lemma main_call_inv (env : Env) (config : Config) (u : DNS.UpdateMessage)
  (p w : string) (o : Z) :
  In (Call p u w o) (fst (main env config)) ->
  exists kr ip u0,
    Builder.Update env (zone config) kr = Ok u0
    /\ Builder.replace env u0 (hostname config) (ttl config) (IPv4.compressed ip) = Ok u.
Proof.
  unfold main.
  destruct (check_config_cases config) as [Hc|[msg Hc]]; rewrite Hc.
  2:{ simpl. intros [E|[]]. discriminate. }
  change (@nil event, Returns tt) with (ret tt). rewrite bind_ret_l.
  destruct (tsigkeyring_from_text env (keyring_text (tsig config))) as [kr|e];
    [|simpl; contradiction].
  simpl lift. rewrite bind_ret_l.
  destruct (get_interface_ip_total env (interface config)) as (t & r & -> & Ht).
  rewrite bind_returns.
  destruct r as [ip|]; simpl.
  2:{ rewrite in_app_iff. simpl. intros [Hin|[E|[]]]; [|discriminate].
      now apply calls_zero_no_call in Hin. }
  destruct (Builder.Update env (zone config) kr) as [u0|e0] eqn:Hu0; simpl.
  2:{ rewrite in_app_iff. simpl. intros [Hin|[E|[]]]; [|discriminate].
      now apply calls_zero_no_call in Hin. }
  destruct (Builder.replace env u0 (hostname config) (ttl config) (IPv4.compressed ip))
    as [u1|e1] eqn:Hu1; simpl.
  2:{ rewrite in_app_iff. simpl. intros [Hin|[E|[]]]; [|discriminate].
      now apply calls_zero_no_call in Hin. }
  destruct (submit env config u1) as [ts os] eqn:Hs. simpl.
  rewrite in_app_iff. simpl. intros [Hin|[E|Hin]]; [|discriminate|].
  - now apply calls_zero_no_call in Hin.
  - assert (Hin' : In (Call p u w o) (fst (submit env config u1))) by now rewrite Hs.
    apply submit_call_inv in Hin' as (-> & _ & _).
    now exists kr, ip, u0.
Qed.

(** The update section after [Update] and [replace]: the deletion of
    the A records of the name, then one A record with the TTL. *)
Lemma replace_update_section (env : Env) (zone_text host : string) (kr : DNS.Keyring)
  (ttl : Z) (addr : string) (u0 u : DNS.UpdateMessage) :
  Builder.Update env zone_text kr = Ok u0 ->
  Builder.replace env u0 host ttl addr = Ok u ->
  exists n rd,
    DNS.update (DNS.message u)
    = [Builder.delete_rrset n DNS.A; Builder.add_rr n DNS.A ttl rd].
Proof.
  unfold Builder.Update, Builder.replace.
  destruct (Builder.name_from_text env zone_text (Some DNS.root)) as [z|]; [|discriminate].
  simpl. intros [= <-].
  destruct (Builder.name_from_text env host None) as [n|]; [|discriminate]. simpl.
  destruct (Builder.inet_aton addr) as [rd|]; [|discriminate]. simpl.
  intros [= <-]. now exists n, rd.
Qed.

(** After the normalisation of the script the zone is never the empty
    string, so the zone check of [main] cannot fire. *)
Lemma normalised_zone_not_empty (config : Config) :
  zone (normalise_zone config) <> ""%string.
Proof.
  unfold normalise_zone. cbn [zone].
  destruct (zone config) as [|c s]; [discriminate|].
  destruct (negb (PyStr.endswith_dot (String c s))); discriminate.
Qed.

(** A configuration that fails one of the checks of [main] ends the
    run with one error record, status 1 and no transport call. *)
Lemma main_precondition_abort (env : Env) (config : Config) :
  (name_server_missing (name_server config) = true
   \/ zone config = ""%string \/ hostname config = ""%string \/ tsig config = []) ->
  exists msg, main env config = ([Log ERROR [Lit msg] false], Exits 1).
Proof.
  intros H. unfold main, check_config, when.
  destruct (name_server_missing (name_server config)); [now eexists|].
  destruct (String.eqb_spec (zone config) ""); [now eexists|].
  destruct (String.eqb_spec (hostname config) ""); [now eexists|].
  destruct (tsig config); [now eexists|].
  destruct H as [H|[H|[H|H]]]; congruence.
Qed.

(** No run of [main] calls the transport twice. *)
Lemma main_calls (env : Env) (config : Config) :
  (Spec.calls (fst (main env config)) <= 1)%nat.
Proof.
  unfold main.
  destruct (check_config_cases config) as [Hc|[msg Hc]]; rewrite Hc; [|simpl; lia].
  change (@nil event, Returns tt) with (ret tt). rewrite bind_ret_l.
  destruct (tsigkeyring_from_text env (keyring_text (tsig config))) as [kr|e];
    [|simpl; lia].
  simpl lift. rewrite bind_ret_l.
  destruct (get_interface_ip_total env (interface config)) as (t & r & -> & Ht).
  rewrite bind_returns.
  destruct r as [ip|]; simpl; [|rewrite calls_app, Ht; simpl; lia].
  destruct (Builder.Update env (zone config) kr) as [u0|e0]; simpl;
    [|rewrite calls_app, Ht; simpl; lia].
  destruct (Builder.replace env u0 (hostname config) (ttl config) (IPv4.compressed ip))
    as [u1|e1]; simpl; [|rewrite calls_app, Ht; simpl; lia].
  pose proof (submit_calls env config u1) as Hs.
  destruct (submit env config u1) as [ts os]. simpl in *.
  rewrite calls_app, Ht. simpl. lia.
Qed.

End RunFacts.

Section RunClaims.

Import Main.


(** C7, at the input where the script departs from it.  With complete
    settings and the option [--zone ''], the settings load, the empty
    string of the option replaces their zone, the script turns it into
    ["."], the zone check of [main] does not fire, and the run goes on to
    call the transport with an update for the root zone and returns
    normally.  Settings that lack the zone themselves do not get that
    far: [Config()] refuses them. *)
Theorem empty_zone_option_reaches_the_transport :
  validated Examples.settings = true
  /\ zone (override Examples.settings Scenarios.args_empty_zone) = ""%string
  /\ zone (normalise_zone (override Examples.settings Scenarios.args_empty_zone))
     = "."%string
  /\ Spec.calls (fst (script Examples.env Examples.settings Scenarios.args_empty_zone))
     = 1%nat
  /\ snd (script Examples.env Examples.settings Scenarios.args_empty_zone) = Returns tt
  /\ (exists u,
         nth_error (fst (script Examples.env Examples.settings Scenarios.args_empty_zone)) 1
         = Some (Call "udp" u "192.0.2.53" 5)
         /\ DNS.zone (DNS.message u) = [DNS.mkQuestion DNS.root DNS.SOA DNS.IN])
  /\ script Examples.env Examples.settings_without_zone Examples.no_args
     = ([], Raises (ValidationError "Config")).
Proof.
  repeat split; try reflexivity.
  eexists. split; reflexivity.
Qed.

(** C8, counterexample.  With [tls], a name that is neither [tcp] nor
    [udp] but is an attribute of the module, [submit] raises no
    unsupported-protocol error: it calls that attribute and returns. *)
Lemma other_attribute_is_called :
  (protocol Examples.settings_tls <> "tcp"%string
   /\ protocol Examples.settings_tls <> "udp"%string)
  /\ nth_error
       (fst (submit Examples.env Examples.settings_tls (Examples.update_with_ttl 300))) 0
     = Some (Call "tls" (Examples.update_with_ttl 300) "192.0.2.53" 5)
  /\ snd (submit Examples.env Examples.settings_tls (Examples.update_with_ttl 300))
     = Returns tt.
Proof.
  repeat split; try reflexivity; discriminate.
Qed.

(** C9, counterexample.  With [--ttl 0] and complete settings the run
    passes every check and calls the transport with an update whose A
    record has TTL 0. *)
Lemma zero_ttl_is_sent :
  nth_error (fst (script Examples.env Examples.settings Examples.args_ttl_0)) 1
  = Some (Call "udp" (Examples.update_with_ttl 0) "192.0.2.53" 5)
  /\ map DNS.rr_ttl (DNS.update (DNS.message (Examples.update_with_ttl 0))) = [0; 0].
Proof.
  split; reflexivity.
Qed.

(** C9, as the code has it.  The update of every transport call of
    [main] is the deletion of the A records of the name followed by one A
    record whose TTL is the TTL of the configuration, as it is; and the
    checks of [main] do not look at the TTL: two configurations that
    differ in nothing else pass or fail them alike. *)
Theorem ttl_is_the_configured_value
  (env : Env) (config : Config) (p w : string) (u : DNS.UpdateMessage) (o : Z) :
  In (Call p u w o) (fst (main env config)) ->
  (exists n rd,
      DNS.update (DNS.message u)
      = [Builder.delete_rrset n DNS.A; Builder.add_rr n DNS.A (ttl config) rd])
  /\ (forall ttl',
         check_config
           (mkConfig (tsig config) (name_server config) (zone config) (hostname config)
              ttl' (timeout config) (protocol config) (interface config)
              (log_level config))
         = check_config config).
Proof.
  intros Hin. split.
  - apply main_call_inv in Hin as (kr & ip & u0 & Hu0 & Hu).
    exact (replace_update_section _ _ _ _ _ _ _ _ Hu0 Hu).
  - intros ttl'. reflexivity.
Qed.

Lemma ttl_is_the_configured_value_witness :
  (exists n rd,
      DNS.update (DNS.message (Examples.update_with_ttl 3600))
      = [Builder.delete_rrset n DNS.A;
         Builder.add_rr n DNS.A (ttl Examples.settings) rd])
  /\ (forall ttl',
         check_config
           (mkConfig (tsig Examples.settings) (name_server Examples.settings)
              (zone Examples.settings) (hostname Examples.settings)
              ttl' (timeout Examples.settings) (protocol Examples.settings)
              (interface Examples.settings) (log_level Examples.settings))
         = check_config Examples.settings).
Proof.
  apply (ttl_is_the_configured_value Examples.env Examples.settings
           "udp" "192.0.2.53" (Examples.update_with_ttl 3600) 5).
  vm_compute. right. left. reflexivity.
Defined.

End RunClaims.

(** ** The theorems at concrete inputs *)

Section Witnesses.

Import Resolver Main.

Lemma resolve_first_usable_address_witness :
  get_interface_ip Examples.env (Some "WLAN"%string) = ([], Returns (Some 3405803783))
  /\ get_interface_ip Examples.env_loopback_only (Some "lo"%string) = ([], Returns None).
Proof.
  split.
  - apply (proj1 (resolve_first_usable_address Examples.env (Some "WLAN"%string)
                    _ _ eq_refl eq_refl)
             [mkAddr AF_LINK "aa:bb:cc:dd:ee:ff"; mkAddr AF_INET "169.254.10.20"]
             (mkAddr AF_INET "203.0.113.7") [mkAddr AF_INET "198.51.100.9"]);
      try reflexivity.
    intros b [<-|[<-|[]]]; reflexivity.
  - apply (proj2 (resolve_first_usable_address Examples.env_loopback_only
                    (Some "lo"%string) _ _ eq_refl eq_refl)); [reflexivity|].
    intros b [<-|[<-|[]]]; reflexivity.
Defined.

Lemma absent_interface_not_found_witness :
  get_interface_ip Examples.env (Some "eth7"%string)
  = ([Log ERROR [Lit "获取接口IP地址失败: ";
                 Hole (VExn (ValueError "找不到接口: eth7"))] false],
     Returns None).
Proof.
  apply (proj1 (absent_interface_not_found Examples.env _ "eth7" eq_refl
                  ltac:(simpl; intros [H|[H|[]]]; discriminate))).
Defined.

Lemma heuristic_first_match_witness :
  select_netif None
    [("lo"%string, [mkAddr AF_INET "127.0.0.1"]);
     ("WLAN"%string, [mkAddr AF_LINK "aa:bb:cc:dd:ee:ff";
                      mkAddr AF_INET "169.254.10.20";
                      mkAddr AF_INET "203.0.113.7";
                      mkAddr AF_INET "198.51.100.9"])]
  = Ok [mkAddr AF_LINK "aa:bb:cc:dd:ee:ff"; mkAddr AF_INET "169.254.10.20";
        mkAddr AF_INET "203.0.113.7"; mkAddr AF_INET "198.51.100.9"].
Proof.
  apply (proj1 (heuristic_first_match Examples.env _ eq_refl)
           [("lo"%string, [mkAddr AF_INET "127.0.0.1"])] "WLAN"%string _ [] eq_refl).
  - intros n' a' [[= <- <-]|[]] (alias & Hin & Heq).
    simpl in Hin. destruct Hin as [<-|[<-|[<-|[]]]]; discriminate.
  - exists "wlan"%string. split; [simpl; auto|reflexivity].
Defined.

Lemma get_interface_ip_catches_everything_witness :
  main Examples.env_loopback_only Examples.settings
  = ([Log ERROR [Lit "获取接口IP地址失败: ";
                 Hole (VExn (UnboundLocalError "netif"))] false]
       ++ [Spec.no_address_record Examples.settings],
     Exits 1).
Proof.
  apply (proj2 (proj2 (proj2 (proj2 (proj2
           (get_interface_ip_catches_everything Examples.env_loopback_only None)))))
           Examples.settings []); reflexivity.
Defined.

Lemma response_classification_witness :
  exists ev dbg,
    submit Examples.env Examples.settings (Examples.update_with_ttl 300)
    = ([Call "udp" (Examples.update_with_ttl 300) "192.0.2.53" 5; ev; Log DEBUG dbg false],
       Returns tt)
    /\ classify Examples.settings (DNS.mkResponse 4660 DNS.NOERROR) = ([ev], Returns tt)
    /\ Spec.read_outcome ev = Some (Spec.Success 4660).
Proof.
  apply (response_classification Examples.env Examples.settings
           (Examples.update_with_ttl 300) _ "192.0.2.53"
           (DNS.mkResponse 4660 DNS.NOERROR) eq_refl eq_refl eq_refl).
Defined.


Lemma transport_dispatch_witness :
  submit Examples.env
    (mkConfig [] (NsAddress "192.0.2.53") "example.com." "host" 300 5 "sctp" None "info")
    (Examples.update_with_ttl 300)
  = ([], Raises (ValueError "不支持的协议: sctp")).
Proof.
  apply (proj1 (transport_dispatch Examples.env
                  (mkConfig [] (NsAddress "192.0.2.53") "example.com." "host" 300 5
                     "sctp" None "info")
                  (Examples.update_with_ttl 300))).
  simpl. intros [H|[H|[H|[H|[]]]]]; discriminate.
Defined.

End Witnesses.

(** ** The wire format *)

Section WireFacts.

Import DNS.

Lemma Z_of_byte_of_Z (z : Z) : Z_of_byte (byte_of_Z z) = z mod 256.
Proof.
  unfold Z_of_byte, byte_of_Z.
  assert (Hr : 0 <= z mod 256 < 256) by (apply Z.mod_pos_bound; lia).
  destruct (Byte.of_N (Z.to_N (z mod 256))) as [b|] eqn:E.
  - apply Byte.to_of_N in E. rewrite E. lia.
  - apply Byte.of_N_None_iff in E. lia.
Qed.

Lemma to_nat_byte_of_Z (n : nat) :
  (n < 256)%nat -> Byte.to_nat (byte_of_Z (Z.of_nat n)) = n.
Proof.
  intros Hn. rewrite Byte.to_nat_via_N.
  assert (H := Z_of_byte_of_Z (Z.of_nat n)). unfold Z_of_byte in H.
  rewrite Z.mod_small in H by lia. lia.
Qed.

Lemma pack_u16_some (z : Z) :
  0 <= z < 65536 -> pack_u16 z = Some [byte_of_Z (z / 256); byte_of_Z z].
Proof.
  intros H. unfold pack_u16.
  destruct (Z.leb_spec 0 z); [|lia]. destruct (Z.ltb_spec z 65536); [|lia]. reflexivity.
Qed.

Lemma pack_u32_some (z : Z) :
  0 <= z < 4294967296 ->
  pack_u32 z = Some [byte_of_Z (z / 16777216); byte_of_Z (z / 65536);
                     byte_of_Z (z / 256); byte_of_Z z].
Proof.
  intros H. unfold pack_u32.
  destruct (Z.leb_spec 0 z); [|lia]. destruct (Z.ltb_spec z 4294967296); [|lia].
  reflexivity.
Qed.

Lemma unpack_pack_u16 (z : Z) (bs rest : list byte) :
  pack_u16 z = Some bs -> unpack_u16 (bs ++ rest) = Some (z, rest).
Proof.
  unfold pack_u16.
  destruct (Z.leb_spec 0 z); [|discriminate].
  destruct (Z.ltb_spec z 65536); [|discriminate].
  intros [= <-]. simpl. rewrite !Z_of_byte_of_Z.
  f_equal. f_equal.
  rewrite (Z.mod_small (z / 256)) by (split; [apply Z.div_pos|apply Z.div_lt_upper_bound]; lia).
  rewrite (Z.mul_comm (z / 256)). symmetry. apply Z.div_mod. lia.
Qed.

Lemma unpack_pack_u32 (z : Z) (bs rest : list byte) :
  pack_u32 z = Some bs -> unpack_u32 (bs ++ rest) = Some (z, rest).
Proof.
  unfold pack_u32.
  destruct (Z.leb_spec 0 z); [|discriminate].
  destruct (Z.ltb_spec z 4294967296); [|discriminate].
  intros [= <-]. simpl. rewrite !Z_of_byte_of_Z.
  f_equal. f_equal.
  pose proof (Z.div_mod z 256 ltac:(lia)).
  pose proof (Z.div_mod (z / 256) 256 ltac:(lia)).
  pose proof (Z.div_mod (z / 256 / 256) 256 ltac:(lia)).
  pose proof (Z.mod_pos_bound z 256 ltac:(lia)).
  pose proof (Z.mod_pos_bound (z / 256) 256 ltac:(lia)).
  pose proof (Z.mod_pos_bound (z / 256 / 256) 256 ltac:(lia)).
  replace (z / 65536) with (z / 256 / 256)
    by (change 65536 with (256 * 256); now rewrite Z.div_div by lia).
  replace (z / 16777216) with (z / 256 / 256 / 256)
    by (change 16777216 with (256 * 256 * 256); now rewrite !Z.div_div by lia).
  assert (0 <= z / 256 / 256 / 256 < 256).
  { split; [repeat apply Z.div_pos; lia|].
    repeat (apply Z.div_lt_upper_bound; [lia|]). lia. }
  rewrite (Z.mod_small (z / 256 / 256 / 256)) by lia.
  lia.
Qed.

Lemma length_list_byte_of_string (s : string) :
  List.length (list_byte_of_string s) = String.length s.
Proof.
  unfold list_byte_of_string. rewrite length_map.
  induction s as [|c s IH]; simpl; [reflexivity|now rewrite IH].
Qed.

Lemma firstn_length_app {X : Type} (a b : list X) : firstn (List.length a) (a ++ b) = a.
Proof. induction a as [|x a IH]; simpl; [now destruct b|now rewrite IH]. Qed.

Lemma skipn_length_app {X : Type} (a b : list X) : skipn (List.length a) (a ++ b) = b.
Proof. induction a as [|x a IH]; simpl; [reflexivity|exact IH]. Qed.

Lemma length_name_to_wire (n : Name) : List.length (name_to_wire n) = wire_length n.
Proof.
  induction n as [|l n IH]; simpl; [reflexivity|].
  now rewrite length_app, length_list_byte_of_string, IH.
Qed.

Lemma wire_length_labels (n : Name) : (List.length n <= wire_length n)%nat.
Proof. induction n as [|l n IH]; simpl; lia. Qed.

(** A name is fit for the wire when it is absolute, none of its labels
    but the root is empty and none is longer than 63 bytes. *)
Lemma labels_round_trip (n : Name) (rest : list byte) (fuel : nat) :
  is_absolute n = true ->
  inner_labels_ok n = true ->
  (List.length n <= fuel)%nat ->
  labels_from_wire fuel (name_to_wire n ++ rest) = Some (n, rest).
Proof.
  revert fuel. induction n as [|l n IH]; intros fuel Habs Hok Hfuel; [discriminate|].
  destruct fuel as [|fuel]; [simpl in Hfuel; lia|].
  destruct n as [|l2 n].
  - simpl in Habs. apply String.eqb_eq in Habs. subst l. reflexivity.
  - assert (Hl : l <> ""%string /\ (String.length l <= 63)%nat
                 /\ inner_labels_ok (l2 :: n) = true).
    { change (inner_labels_ok (l :: l2 :: n))
        with (negb (String.eqb l "") && (String.length l <=? 63)%nat
              && inner_labels_ok (l2 :: n))%bool in Hok.
      apply andb_true_iff in Hok as [Hok H3]. apply andb_true_iff in Hok as [H1 H2].
      apply negb_true_iff, String.eqb_neq in H1. apply Nat.leb_le in H2. auto. }
    destruct Hl as (Hne & Hlen & Hok').
    change (name_to_wire (l :: l2 :: n))
      with (byte_of_Z (Z.of_nat (String.length l))
              :: list_byte_of_string l ++ name_to_wire (l2 :: n)).
    cbn [app labels_from_wire].
    rewrite to_nat_byte_of_Z by lia.
    assert (Hpos : String.length l <> 0%nat) by (destruct l; [congruence|simpl; lia]).
    destruct (Nat.eqb_spec (String.length l) 0); [contradiction|].
    destruct (Nat.ltb_spec 63 (String.length l)); [lia|].
    rewrite <- app_assoc.
    rewrite <- (length_list_byte_of_string l).
    destruct (Nat.ltb_spec
                (List.length (list_byte_of_string l ++ name_to_wire (l2 :: n) ++ rest))
                (List.length (list_byte_of_string l))) as [Hlt|_].
    { rewrite length_app in Hlt. lia. }
    rewrite skipn_length_app, firstn_length_app.
    rewrite (IH fuel); [|exact Habs|exact Hok'|simpl in *; lia].
    simpl. now rewrite string_of_list_byte_of_string.
Qed.

Lemma name_round_trip (n : Name) (rest : list byte) :
  is_absolute n = true ->
  inner_labels_ok n = true ->
  (wire_length n <= 255)%nat ->
  name_from_wire (name_to_wire n ++ rest) = Some (n, rest).
Proof.
  intros Habs Hok Hlen. unfold name_from_wire.
  rewrite labels_round_trip; [|exact Habs|exact Hok|].
  - simpl. destruct (Nat.leb_spec (wire_length n) 255); [reflexivity|lia].
  - rewrite length_app, length_name_to_wire.
    pose proof (wire_length_labels n). lia.
Qed.

End WireFacts.

Section WireRoundTrip.

Import DNS.

Lemma fit_spec (n : Name) :
  fit n = true ->
  is_absolute n = true /\ inner_labels_ok n = true /\ (wire_length n <= 255)%nat.
Proof.
  unfold fit. intros H.
  apply andb_true_iff in H as [H H3]. apply andb_true_iff in H as [H1 H2].
  apply Nat.leb_le in H3. auto.
Qed.

Lemma question_round_trip (org : Name) (q : Question) (b rest : list byte) :
  fit (absolute_name org (q_name q)) = true ->
  question_to_wire org q = Some b ->
  question_from_wire (b ++ rest) = Some (absolute_question org q, rest).
Proof.
  unfold question_to_wire, absolute_question, absolute_name.
  destruct (derelativize (q_name q) org) as [n|]; [|discriminate].
  intros Hfit. apply fit_spec in Hfit as (Habs & Hok & Hlen). cbn [obind].
  destruct (pack_u16 (q_type q)) as [t|] eqn:Ht; [|discriminate].
  destruct (pack_u16 (q_class q)) as [c|] eqn:Hc; [|discriminate].
  cbn [obind]. intros [= <-].
  unfold question_from_wire. rewrite <- !app_assoc.
  rewrite (name_round_trip n _ Habs Hok Hlen). cbn [obind].
  rewrite (unpack_pack_u16 _ _ _ Ht). cbn [obind].
  rewrite (unpack_pack_u16 _ _ _ Hc). reflexivity.
Qed.

Lemma rr_round_trip (org : Name) (r : RR) (b rest : list byte) :
  fit (absolute_name org (rr_name r)) = true ->
  rr_to_wire org r = Some b ->
  rr_from_wire (b ++ rest) = Some (absolute_rr org r, rest).
Proof.
  unfold rr_to_wire, absolute_rr, absolute_name.
  destruct (derelativize (rr_name r) org) as [n|]; [|discriminate].
  intros Hfit. apply fit_spec in Hfit as (Habs & Hok & Hlen). cbn [obind].
  destruct (pack_u16 (rr_type r)) as [t|] eqn:Ht; [|discriminate].
  destruct (pack_u16 (rr_class r)) as [c|] eqn:Hc; [|discriminate].
  destruct (pack_u32 (rr_ttl r)) as [ttl|] eqn:Httl; [|discriminate].
  destruct (pack_u16 (Z.of_nat (List.length (rr_rdata r)))) as [len|] eqn:Hl;
    [|discriminate].
  cbn [obind]. intros [= <-].
  unfold rr_from_wire. rewrite <- !app_assoc.
  rewrite (name_round_trip n _ Habs Hok Hlen). cbn [obind].
  rewrite (unpack_pack_u16 _ _ _ Ht). cbn [obind].
  rewrite (unpack_pack_u16 _ _ _ Hc). cbn [obind].
  rewrite (unpack_pack_u32 _ _ _ Httl). cbn [obind].
  rewrite (unpack_pack_u16 _ _ _ Hl). cbn [obind].
  rewrite Nat2Z.id.
  destruct (Nat.ltb_spec (List.length (rr_rdata r ++ rest)) (List.length (rr_rdata r)))
    as [Hlt|_]; [rewrite length_app in Hlt; lia|].
  now rewrite firstn_length_app, skipn_length_app.
Qed.

Lemma section_round_trip {X : Type}
  (f : X -> option (list byte)) (g : list byte -> option (X * list byte))
  (h : X -> X) (ok : X -> bool) (xs : list X) :
  (forall x b rest, ok x = true -> f x = Some b -> g (b ++ rest) = Some (h x, rest)) ->
  forallb ok xs = true ->
  forall bs rest,
    section_to_wire f xs = Some bs ->
    section_from_wire g (List.length xs) (bs ++ rest) = Some (map h xs, rest).
Proof.
  intros Hone. induction xs as [|x xs IH]; intros Hok bs rest; simpl.
  - now intros [= <-].
  - simpl in Hok. apply andb_true_iff in Hok as [Hx Hxs].
    destruct (f x) as [b|] eqn:Hb; [|discriminate]. cbn [obind].
    destruct (section_to_wire f xs) as [bs'|] eqn:Hbs; [|discriminate]. cbn [obind].
    intros [= <-]. rewrite <- app_assoc.
    rewrite (Hone x b _ Hx Hb). cbn [obind].
    rewrite (IH Hxs bs' rest eq_refl). reflexivity.
Qed.

Lemma count_round_trip (n : nat) (bs rest : list byte) :
  pack_u16 (Z.of_nat n) = Some bs ->
  unpack_u16 (bs ++ rest) = Some (Z.of_nat n, rest).
Proof. apply unpack_pack_u16. Qed.

(** What [to_wire] writes, [from_wire] reads back: the same message,
    with every name in absolute form. *)
Lemma wire_round_trip (org : Name) (m : Message) (bs : list byte) :
  names_fit org m = true ->
  to_wire org m = Some bs ->
  from_wire bs = Some (absolute_message org m).
Proof.
  unfold names_fit, to_wire. intros Hfit.
  apply andb_true_iff in Hfit as [Hfit Ha]. apply andb_true_iff in Hfit as [Hfit Hu].
  apply andb_true_iff in Hfit as [Hz Hp].
  destruct (pack_u16 (id m)) as [i|] eqn:Hi; [|discriminate].
  destruct (pack_u16 (flags m)) as [f|] eqn:Hf; [|discriminate].
  destruct (pack_u16 (Z.of_nat (List.length (zone m)))) as [zc|] eqn:Hzc; [|discriminate].
  destruct (pack_u16 (Z.of_nat (List.length (prerequisite m)))) as [pc|] eqn:Hpc;
    [|discriminate].
  destruct (pack_u16 (Z.of_nat (List.length (update m)))) as [uc|] eqn:Huc; [|discriminate].
  destruct (pack_u16 (Z.of_nat (List.length (additional m)))) as [ac|] eqn:Hac;
    [|discriminate].
  cbn [obind].
  destruct (section_to_wire (question_to_wire org) (zone m)) as [z|] eqn:Hzs;
    [|discriminate].
  destruct (section_to_wire (rr_to_wire org) (prerequisite m)) as [p|] eqn:Hps;
    [|discriminate].
  destruct (section_to_wire (rr_to_wire org) (update m)) as [u|] eqn:Hus; [|discriminate].
  destruct (section_to_wire (rr_to_wire org) (additional m)) as [a|] eqn:Has;
    [|discriminate].
  cbn [obind]. intros [= <-].
  unfold from_wire.
  rewrite (unpack_pack_u16 _ _ _ Hi). cbn [obind].
  rewrite (unpack_pack_u16 _ _ _ Hf). cbn [obind].
  rewrite (unpack_pack_u16 _ _ _ Hzc). cbn [obind].
  rewrite (unpack_pack_u16 _ _ _ Hpc). cbn [obind].
  rewrite (unpack_pack_u16 _ _ _ Huc). cbn [obind].
  rewrite (unpack_pack_u16 _ _ _ Hac). cbn [obind].
  rewrite !Nat2Z.id.
  rewrite (section_round_trip (question_to_wire org) question_from_wire
             (absolute_question org) (fun q => fit (absolute_name org (q_name q)))
             (zone m) (fun x b rest => question_round_trip org x b rest) Hz _ _ Hzs).
  cbn [obind].
  rewrite (section_round_trip (rr_to_wire org) rr_from_wire
             (absolute_rr org) (fun r => fit (absolute_name org (rr_name r)))
             (prerequisite m) (fun x b rest => rr_round_trip org x b rest) Hp _ _ Hps).
  cbn [obind].
  rewrite (section_round_trip (rr_to_wire org) rr_from_wire
             (absolute_rr org) (fun r => fit (absolute_name org (rr_name r)))
             (update m) (fun x b rest => rr_round_trip org x b rest) Hu _ _ Hus).
  cbn [obind].
  rewrite <- (app_nil_r a).
  rewrite (section_round_trip (rr_to_wire org) rr_from_wire
             (absolute_rr org) (fun r => fit (absolute_name org (rr_name r)))
             (additional m) (fun x b rest => rr_round_trip org x b rest) Ha _ _ Has).
  reflexivity.
Qed.

End WireRoundTrip.

(** ** The update message of [main] on the wire *)

Section UpdateRoundTrip.

Import DNS.

Lemma split_cons_no_sep (s rest : string) :
  PyStr.contains "." s = false ->
  PyStr.split "." (s ++ String "." rest) = s :: PyStr.split "." rest.
Proof.
  induction s as [|c s IH]; intros H.
  - reflexivity.
  - cbn [PyStr.contains] in H. cbn [append PyStr.split].
    destruct (Ascii.eqb c "."); [discriminate|].
    now rewrite (IH H).
Qed.

Lemma split_no_sep (s : string) :
  PyStr.contains "." s = false -> PyStr.split "." s = [s].
Proof.
  induction s as [|c s IH]; intros H.
  - reflexivity.
  - cbn [PyStr.contains] in H. cbn [PyStr.split].
    destruct (Ascii.eqb c "."); [discriminate|].
    now rewrite (IH H).
Qed.

Lemma octet_text_table :
  forallb
    (fun o =>
       negb (PyStr.contains "." (PyStr.str_small o))
       && match Builder.inet_aton_part (PyStr.str_small o) with
          | Some b => Byte.eqb b (byte_of_Z o)
          | None => false
          end)
    (map Z.of_nat (seq 0 256)) = true.
Proof. vm_compute. reflexivity. Qed.

(** The decimal text of an octet has no dot and reads back as the
    octet. *)
Lemma octet_text (o : Z) :
  0 <= o < 256 ->
  PyStr.contains "." (PyStr.str_small o) = false
  /\ Builder.inet_aton_part (PyStr.str_small o) = Some (byte_of_Z o).
Proof.
  intros Ho.
  assert (Hin : In o (map Z.of_nat (seq 0 256))).
  { apply in_map_iff. exists (Z.to_nat o). split; [lia|]. apply in_seq. lia. }
  pose proof (proj1 (forallb_forall _ _) octet_text_table o Hin) as H.
  cbv beta in H. apply andb_true_iff in H as [H1 H2].
  apply negb_true_iff in H1. split; [exact H1|].
  destruct (Builder.inet_aton_part (PyStr.str_small o)) as [b|]; [|discriminate].
  f_equal. now apply Byte.byte_dec_bl.
Qed.

(** The library reads the text [ip.compressed] back as the four
    octets of the address. *)
Lemma inet_aton_compressed (ip : IPv4.t) :
  Builder.inet_aton (IPv4.compressed ip) = Ok (map byte_of_Z (IPv4.octets ip)).
Proof.
  unfold Builder.inet_aton, IPv4.compressed, IPv4.octets.
  cbn [map PyStr.join].
  assert (Hb : forall x, 0 <= x mod 256 < 256) by (intros; apply Z.mod_pos_bound; lia).
  destruct (octet_text _ (Hb (ip / 16777216))) as [Ha1 Ha2].
  destruct (octet_text _ (Hb (ip / 65536))) as [Hb1 Hb2].
  destruct (octet_text _ (Hb (ip / 256))) as [Hc1 Hc2].
  destruct (octet_text _ (Hb ip)) as [Hd1 Hd2].
  assert (Hdot : forall x : string, ("." ++ x)%string = String "." x) by reflexivity.
  rewrite !Hdot.
  rewrite (split_cons_no_sep _ _ Ha1), (split_cons_no_sep _ _ Hb1),
    (split_cons_no_sep _ _ Hc1), (split_no_sep _ Hd1).
  now rewrite Ha2, Hb2, Hc2, Hd2.
Qed.

Lemma is_absolute_app (a b : Name) :
  is_absolute b = true -> is_absolute (a ++ b) = true.
Proof.
  intros Hb. induction a as [|l a IH]; [exact Hb|].
  cbn [app]. destruct (a ++ b) as [|l2 r] eqn:E; [|exact IH].
  destruct a; [|discriminate]. simpl in E. subst b. discriminate.
Qed.

Lemma validate_spec (n n' : Name) :
  validate n = Some n' ->
  n' = n /\ inner_labels_ok n = true /\ (wire_length n <= 255)%nat.
Proof.
  unfold validate.
  destruct (inner_labels_ok n) eqn:H1; [|discriminate].
  destruct (Nat.leb_spec (wire_length n) 255); [|discriminate].
  now intros [= <-].
Qed.

Lemma name_from_text_valid (env : Env) (text : string) (org : option Name) (n : Name) :
  Builder.name_from_text env text org = Ok n ->
  inner_labels_ok n = true /\ (wire_length n <= 255)%nat.
Proof.
  unfold Builder.name_from_text.
  destruct (parse_labels env text) as [labels|]; [|discriminate]. cbn [rbind].
  destruct (validate _) as [n'|] eqn:Hv; [|discriminate].
  intros [= <-]. apply validate_spec in Hv as (-> & H1 & H2). auto.
Qed.

Lemma name_from_text_absolute (env : Env) (text : string) (n : Name) :
  Builder.name_from_text env text (Some root) = Ok n -> is_absolute n = true.
Proof.
  unfold Builder.name_from_text.
  destruct (parse_labels env text) as [labels|]; [|discriminate]. cbn [rbind].
  destruct (validate _) as [n'|] eqn:Hv; [|discriminate].
  intros [= <-]. apply validate_spec in Hv as (-> & _ & _).
  destruct (is_absolute labels) eqn:E; [exact E|].
  now apply is_absolute_app.
Qed.

Lemma derelativize_fit (h z n : Name) :
  is_absolute z = true ->
  inner_labels_ok h = true -> (wire_length h <= 255)%nat ->
  derelativize h z = Some n ->
  fit n = true.
Proof.
  intros Hz H1 H2. unfold derelativize, fit.
  destruct (is_absolute h) eqn:E.
  - intros [= <-]. rewrite E, H1. simpl. now apply Nat.leb_le.
  - intros Hv. apply validate_spec in Hv as (-> & H3 & H4).
    rewrite (is_absolute_app h z Hz), H3. simpl. now apply Nat.leb_le.
Qed.

Lemma name_eqb_refl (n : Name) : Builder.name_eqb n n = true.
Proof.
  induction n as [|l n IH]; [reflexivity|].
  simpl. now rewrite String.eqb_refl, IH.
Qed.

Lemma question_to_wire_some (org : Name) (q : Question) (n : Name) :
  derelativize (q_name q) org = Some n ->
  0 <= q_type q < 65536 -> 0 <= q_class q < 65536 ->
  exists b, question_to_wire org q = Some b.
Proof.
  intros Hn Ht Hc. unfold question_to_wire.
  rewrite Hn, (pack_u16_some _ Ht), (pack_u16_some _ Hc). cbn [obind]. now eexists.
Qed.

Lemma rr_to_wire_some (org : Name) (r : RR) (n : Name) :
  derelativize (rr_name r) org = Some n ->
  0 <= rr_type r < 65536 -> 0 <= rr_class r < 65536 ->
  0 <= rr_ttl r < 4294967296 ->
  Z.of_nat (List.length (rr_rdata r)) < 65536 ->
  exists b, rr_to_wire org r = Some b.
Proof.
  intros Hn Ht Hc Httl Hl. unfold rr_to_wire.
  rewrite Hn, (pack_u16_some _ Ht), (pack_u16_some _ Hc), (pack_u32_some _ Httl).
  rewrite pack_u16_some by lia. cbn [obind]. now eexists.
Qed.

End UpdateRoundTrip.

Section UpdateClaims.

Import DNS.

(** C2, as the code has it.  For a zone and a host name that the
    library accepts as names, with the joined name within the limits of
    a name, a TTL that is positive and below 2^32 and an IPv4 address,
    the message built by [Update] and [replace] has one zone entry and an
    update section made of the deletion of the A records of the name
    followed by one A record with the TTL and the address; it
    serialises, and the bytes decode to exactly that replace operation
    on the absolute name. *)
Theorem rrset_replace_round_trip
  (env : Env) (zone_text host : string) (kr : Keyring) (ttl : Z) (ip : IPv4.t)
  (z h n : Name) :
  Builder.name_from_text env zone_text (Some root) = Ok z ->
  Builder.name_from_text env host None = Ok h ->
  derelativize h z = Some n ->
  0 <= random_id env < 65536 ->
  0 < ttl < 4294967296 ->
  exists u0 u bs m,
    Builder.Update env zone_text kr = Ok u0
    /\ Builder.replace env u0 host ttl (IPv4.compressed ip) = Ok u
    /\ zone (message u) = [mkQuestion z SOA IN]
    /\ update (message u)
       = [Builder.delete_rrset h A;
          Builder.add_rr h A ttl (map byte_of_Z (IPv4.octets ip))]
    /\ Builder.update_to_wire u = Some bs
    /\ from_wire bs = Some m
    /\ zone m = [mkQuestion z SOA IN]
    /\ prerequisite m = [] /\ additional m = []
    /\ update m
       = [Builder.delete_rrset n A;
          Builder.add_rr n A ttl (map byte_of_Z (IPv4.octets ip))]
    /\ Builder.as_replace m = Some (n, ttl, map byte_of_Z (IPv4.octets ip)).
Proof.
  intros Hz Hh Hn Hid Httl.
  pose proof (name_from_text_absolute env zone_text z Hz) as Hzabs.
  destruct (name_from_text_valid env zone_text _ z Hz) as [Hzok Hzlen].
  destruct (name_from_text_valid env host _ h Hh) as [Hhok Hhlen].
  assert (Hzz : derelativize z z = Some z) by (unfold derelativize; now rewrite Hzabs).
  assert (Hfz : fit z = true).
  { unfold fit. rewrite Hzabs, Hzok. simpl. now apply Nat.leb_le. }
  pose proof (derelativize_fit h z n Hzabs Hhok Hhlen Hn) as Hfn.
  set (rd := map byte_of_Z (IPv4.octets ip)).
  set (msg := mkMessage (random_id env) (UPDATE * 2048) [mkQuestion z SOA IN] []
                [Builder.delete_rrset h A; Builder.add_rr h A ttl rd] []).
  assert (Hfit : names_fit z msg = true).
  { unfold names_fit, msg, absolute_name. cbn [zone prerequisite update additional
      forallb q_name rr_name Builder.delete_rrset Builder.add_rr].
    now rewrite Hzz, Hn, Hfz, Hfn. }
  assert (Hwire : exists bs, to_wire z msg = Some bs).
  { assert (Hrd : Z.of_nat (List.length rd) < 65536)
      by (unfold rd; rewrite length_map; cbn; lia).
    destruct (question_to_wire_some z (mkQuestion z SOA IN) z Hzz) as [qb Hqb];
      [cbn; unfold SOA, IN; lia..|].
    destruct (rr_to_wire_some z (Builder.delete_rrset h A) n Hn) as [db Hdb];
      [cbn; unfold A, ANY; lia..|].
    destruct (rr_to_wire_some z (Builder.add_rr h A ttl rd) n Hn) as [ab Hab];
      [cbn [rr_type rr_class rr_ttl rr_rdata Builder.add_rr]; unfold A, IN; lia..|].
    unfold to_wire, msg.
    cbn [id flags zone prerequisite update additional List.length section_to_wire].
    rewrite (pack_u16_some _ Hid).
    rewrite Hqb, Hdb, Hab. cbn. now eexists. }
  destruct Hwire as [bs Hbs].
  exists (mkUpdate z kr (mkMessage (random_id env) (UPDATE * 2048)
                           [mkQuestion z SOA IN] [] [] [])),
    (mkUpdate z kr msg), bs, (absolute_message z msg).
  split; [unfold Builder.Update; now rewrite Hz|].
  split.
  { unfold Builder.replace. rewrite Hh. cbn [rbind].
    rewrite inet_aton_compressed. reflexivity. }
  split; [reflexivity|]. split; [reflexivity|].
  split; [exact Hbs|].
  split; [exact (wire_round_trip z msg bs Hfit Hbs)|].
  assert (Hzq : absolute_question z (mkQuestion z SOA IN) = mkQuestion z SOA IN).
  { unfold absolute_question, absolute_name. cbn [q_name q_type q_class]. now rewrite Hzz. }
  assert (Hupd : update (absolute_message z msg)
                 = [Builder.delete_rrset n A; Builder.add_rr n A ttl rd]).
  { unfold absolute_message, msg, absolute_rr, absolute_name,
      Builder.delete_rrset, Builder.add_rr.
    cbn [update map rr_name rr_class rr_type rr_ttl rr_rdata]. now rewrite Hn. }
  split; [cbn [absolute_message zone msg map]; now rewrite Hzq|].
  split; [reflexivity|]. split; [reflexivity|].
  split; [exact Hupd|].
  unfold Builder.as_replace. rewrite Hupd.
  unfold Builder.delete_rrset, Builder.add_rr.
  cbn [rr_name rr_class rr_type rr_ttl rr_rdata].
  rewrite name_eqb_refl. reflexivity.
Qed.

(** The example of the design document: host, example.com., 300
    seconds, 203.0.113.7. *)
Lemma rrset_replace_round_trip_witness :
  exists u0 u bs m,
    Builder.Update Examples.env "example.com." [] = Ok u0
    /\ Builder.replace Examples.env u0 "host" 300 (IPv4.compressed 3405803783) = Ok u
    /\ zone (message u) = [mkQuestion ["example"; "com"; ""]%string SOA IN]
    /\ update (message u)
       = [Builder.delete_rrset ["host"%string] A;
          Builder.add_rr ["host"%string] A 300 (map byte_of_Z (IPv4.octets 3405803783))]
    /\ Builder.update_to_wire u = Some bs
    /\ from_wire bs = Some m
    /\ zone m = [mkQuestion ["example"; "com"; ""]%string SOA IN]
    /\ prerequisite m = [] /\ additional m = []
    /\ update m
       = [Builder.delete_rrset ["host"; "example"; "com"; ""]%string A;
          Builder.add_rr ["host"; "example"; "com"; ""]%string A 300
            (map byte_of_Z (IPv4.octets 3405803783))]
    /\ Builder.as_replace m
       = Some (["host"; "example"; "com"; ""]%string, 300,
               map byte_of_Z (IPv4.octets 3405803783)).
Proof.
  apply (rrset_replace_round_trip Examples.env "example.com." "host" [] 300 3405803783
           ["example"; "com"; ""]%string ["host"%string]
           ["host"; "example"; "com"; ""]%string);
    [reflexivity|reflexivity|reflexivity|simpl; lia|lia].
Defined.

(** The bytes of that example, and what they decode to. *)
Example design_document_example :
  Builder.update_to_wire (Examples.update_with_ttl 300)
  = Some ["018"; "4"; "("; "000"; "000"; "001"; "000"; "000"; "000"; "002"; "000"; "000";
          "007"; "e"; "x"; "a"; "m"; "p"; "l"; "e"; "003"; "c"; "o"; "m"; "000";
          "000"; "006"; "000"; "001";
          "004"; "h"; "o"; "s"; "t"; "007"; "e"; "x"; "a"; "m"; "p"; "l"; "e";
          "003"; "c"; "o"; "m"; "000";
          "000"; "001"; "000"; "255"; "000"; "000"; "000"; "000"; "000"; "000";
          "004"; "h"; "o"; "s"; "t"; "007"; "e"; "x"; "a"; "m"; "p"; "l"; "e";
          "003"; "c"; "o"; "m"; "000";
          "000"; "001"; "000"; "001"; "000"; "000"; "001"; ","; "000"; "004";
          "203"; "000"; "q"; "007"]%byte
  /\ option_map Builder.as_replace
       (obind (Builder.update_to_wire (Examples.update_with_ttl 300)) from_wire)
     = Some (Some (["host"; "example"; "com"; ""]%string, 300,
                   ["203"; "000"; "q"; "007"]%byte)).
Proof. split; vm_compute; reflexivity. Qed.

(** C2, counterexample.  A TTL of 2^32 is a positive integer the
    command line accepts; the message is built, but it has no wire form,
    the TTL field being 32 bits wide.  A host name with a label of 64
    bytes is refused when the message is built. *)
Lemma oversized_ttl_has_no_wire_form :
  (exists u0 u,
      Builder.Update Examples.env "example.com." [] = Ok u0
      /\ Builder.replace Examples.env u0 "host" 4294967296
           (IPv4.compressed 3405803783) = Ok u
      /\ Builder.update_to_wire u = None)
  /\ (exists u0,
         Builder.Update Examples.env "example.com." [] = Ok u0
         /\ Builder.replace Examples.env u0
              "aaaaaaaaaaaaaaaaaaaaaaaaaaaaaaaaaaaaaaaaaaaaaaaaaaaaaaaaaaaaaaaa"
              300 (IPv4.compressed 3405803783)
            = Err (DNSException "SyntaxError")).
Proof.
  split.
  - eexists. eexists. split; [reflexivity|]. split; [reflexivity|].
    vm_compute. reflexivity.
  - eexists. split; [reflexivity|]. vm_compute. reflexivity.
Qed.

End UpdateClaims.

(** ** Small checks of the string and address functions *)

Example lower_wlan : PyStr.lower "WLAN" = "wlan"%string.
Proof. reflexivity. Qed.

Example lower_cjk : PyStr.lower "以太网" = "以太网"%string.
Proof. reflexivity. Qed.

Example split_trailing_dot : PyStr.split "." "example.com." = ["example"; "com"; ""]%string.
Proof. reflexivity. Qed.

Example address_of_text : IPv4.IPv4Address "203.0.113.7" = Ok 3405803783.
Proof. reflexivity. Qed.

Example text_of_address : IPv4.compressed 3405803783 = "203.0.113.7"%string.
Proof. reflexivity. Qed.

Example leading_zero_refused :
  IPv4.IPv4Address "1.02.3.4" = Err (AddressValueError "1.02.3.4").
Proof. reflexivity. Qed.

Example unusable_addresses :
  map Resolver.usable [2130706433; 2851995905; 4026531841; 3405803783]
  = [false; false; false; true].
Proof. reflexivity. Qed.

Example normalise_adds_the_dot :
  zone (Main.normalise_zone
          (mkConfig [] NsNone "example.com" "host" 300 5 "udp" None "info"))
  = "example.com."%string.
Proof. reflexivity. Qed.

(* ================================================================= *)
(** * Further properties of the script *)

(** ** The shape of a run *)

Section RunShapes.

Import Resolver Main.

Lemma check_config_spec (config : Config) :
  (check_config config = ([], Returns tt)
   /\ name_server_missing (name_server config) = false
   /\ zone config <> ""%string /\ hostname config <> ""%string /\ tsig config <> [])
  \/ (exists msg,
         check_config config = ([Log ERROR [Lit msg] false], Exits 1)
         /\ ((msg = Records.no_name_server
              /\ name_server_missing (name_server config) = true)
             \/ (msg = Records.no_zone /\ zone config = ""%string)
             \/ (msg = Records.no_hostname /\ hostname config = ""%string)
             \/ (msg = Records.no_keys /\ tsig config = []))).
Proof.
  unfold check_config, when.
  destruct (name_server_missing (name_server config)) eqn:Hn;
    [right; eexists; split; [reflexivity|]; auto|].
  destruct (String.eqb_spec (zone config) "") as [Hz|Hz];
    [right; eexists; split; [reflexivity|]; auto|].
  destruct (String.eqb_spec (hostname config) "") as [Hh|Hh];
    [right; eexists; split; [reflexivity|]; auto 6|].
  destruct (tsig config) eqn:Hk;
    [right; eexists; split; [reflexivity|]; auto 6|].
  left. repeat split; auto. discriminate.
Qed.

Lemma get_interface_ip_cases (env : Env) (interface_name : option string) :
  (exists r, body env interface_name = Ok r
             /\ get_interface_ip env interface_name = ([], Returns r))
  \/ (exists e, body env interface_name = Err e
                /\ get_interface_ip env interface_name
                   = ([Records.resolver_record e], Returns None)).
Proof.
  unfold get_interface_ip.
  destruct (body env interface_name) as [r|e]; [left|right]; eexists; split; reflexivity.
Qed.

(** [submit] either raises before any call, or starts with the one
    transport call and goes on with records that are neither calls nor
    bare error texts. *)
Lemma submit_cases (env : Env) (config : Config) (update : DNS.UpdateMessage) :
  (exists e, submit env config update = ([], Raises e))
  \/ (exists f w tl o,
         dict_get (protocol config) (dns_query env) = Some (Function f)
         /\ name_server config = NsAddress w
         /\ submit env config update
            = (Call (protocol config) update w (timeout config) :: tl, o)
         /\ Spec.calls tl = 0%nat
         /\ (forall msg, ~ In (Log ERROR [Lit msg] false) tl)
         /\ (o = Returns tt \/ exists e, o = Raises e)).
Proof.
  unfold submit, send.
  destruct (PyStr.mem (protocol config) (dir (dns_query env))); [|left; now eexists].
  destruct (dict_get (protocol config) (dns_query env)) as [[f|]|] eqn:Hget;
    [|destruct (name_server config); left; now eexists|left; now eexists].
  destruct (name_server config) as [|w|s] eqn:Hns; [left; now eexists| |left; now eexists].
  right. exists f, w. simpl lift. rewrite bind_ret_l.
  destruct (f update w (timeout config)) as [r|e].
  - destruct (classify_one_record config r) as (ev & Hc & Hev).
    rewrite bind_returns. simpl. rewrite Hc. simpl.
    eexists. eexists. repeat split; try reflexivity.
    + destruct ev; [reflexivity|discriminate].
    + intros msg [E|[E|[]]]; [|discriminate]. subst ev. discriminate.
    + now left.
  - rewrite bind_raises. unfold try_except_DNSException.
    destruct (is_DNSException e); simpl.
    + eexists. eexists. repeat split; try reflexivity.
      * intros msg [E|[E|[]]]; discriminate.
      * now left.
    + eexists. eexists. repeat split; try reflexivity.
      * intros msg [].
      * right. now eexists.
Qed.

(** The five ways [main] can go. *)
Lemma main_cases (env : Env) (config : Config) :
  (exists msg,
      check_config config = ([Log ERROR [Lit msg] false], Exits 1)
      /\ main env config = ([Log ERROR [Lit msg] false], Exits 1))
  \/ (check_config config = ([], Returns tt)
      /\ ((exists e,
              tsigkeyring_from_text env (keyring_text (tsig config)) = Err e
              /\ main env config = ([], Raises e))
          \/ (exists kr t,
                 tsigkeyring_from_text env (keyring_text (tsig config)) = Ok kr
                 /\ ((get_interface_ip env (interface config) = (t, Returns None)
                      /\ main env config
                         = (t ++ [Spec.no_address_record config], Exits 1))
                     \/ (exists ip,
                            get_interface_ip env (interface config)
                            = (t, Returns (Some ip))
                            /\ ((exists e,
                                    main env config
                                    = (t ++ [Records.announce_record config ip], Raises e))
                                \/ (exists u0 u,
                                       Builder.Update env (zone config) kr = Ok u0
                                       /\ Builder.replace env u0 (hostname config)
                                            (ttl config) (IPv4.compressed ip) = Ok u
                                       /\ main env config
                                          = (t ++ Records.announce_record config ip
                                               :: fst (submit env config u),
                                             snd (submit env config u))))))))).
Proof.
  unfold main.
  destruct (check_config_cases config) as [Hc|[msg Hc]]; rewrite Hc.
  2:{ left. exists msg. split; reflexivity. }
  right. split; [reflexivity|].
  change (@nil event, Returns tt) with (ret tt). rewrite bind_ret_l.
  destruct (tsigkeyring_from_text env (keyring_text (tsig config))) as [kr|e].
  2:{ left. exists e. split; reflexivity. }
  right. simpl lift. rewrite bind_ret_l.
  destruct (get_interface_ip_total env (interface config)) as (t & r & Hg & Ht).
  exists kr, t. split; [reflexivity|]. rewrite Hg, bind_returns.
  destruct r as [ip|]; [right|left; split; reflexivity].
  exists ip. split; [reflexivity|]. simpl.
  destruct (Builder.Update env (zone config) kr) as [u0|e0]; simpl.
  2:{ left. exists e0. reflexivity. }
  destruct (Builder.replace env u0 (hostname config) (ttl config) (IPv4.compressed ip))
    as [u1|e1] eqn:Hu1; simpl.
  2:{ left. exists e1. reflexivity. }
  right. exists u0, u1. split; [reflexivity|]. split; [exact Hu1|].
  destruct (submit env config u1) as [ts os]. reflexivity.
Qed.

Lemma resolver_trace (env : Env) (interface_name : option string)
  (t : list event) (r : option IPv4.t) :
  get_interface_ip env interface_name = (t, Returns r) ->
  Spec.calls t = 0%nat /\ (forall msg, ~ In (Log ERROR [Lit msg] false) t).
Proof.
  destruct (get_interface_ip_cases env interface_name) as [(r' & _ & ->)|(e & _ & ->)];
    intros [= <- _]; split; try reflexivity.
  - intros msg [].
  - intros msg [E|[]]. discriminate.
Qed.

(** The four ways the script can go: the parser ends it with status 2
    or, for the help option, 0; [Config()] refuses the settings; or
    [main] runs on the merged and normalised configuration. *)
Lemma script_cases (env : Env) (settings : Config) (argv : Args) :
  script env settings argv = ([], Exits 2)
  \/ (script env settings argv = ([], Exits 0) /\ arg_help argv = true)
  \/ (script env settings argv = ([], Raises (ValidationError "Config"))
      /\ validated settings = false)
  \/ exists args,
      parse_args argv = ([], Returns args)
      /\ validated settings = true
      /\ script env settings argv = main env (normalise_zone (override settings args)).
Proof.
  unfold script, Config_init.
  destruct (parse_args_cases argv) as [->|[[-> Hh]|(args & -> & _)]];
    [now left|right; left; now split|].
  right. right.
  change (@nil event, Returns args) with (ret args). rewrite bind_ret_l.
  destruct (validated settings); [right|left; now split].
  exists args. rewrite bind_ret_l. now repeat split.
Qed.

End RunShapes.

(** ** The resolver: what it returns, and what it passes over *)

Section ResolverExtras.

Import Resolver.

Lemma family_eqb_eq (a b : address_family) : family_eqb a b = true -> a = b.
Proof. destruct a, b; simpl; intros H; congruence. Qed.

Lemma int_of_digits_nonneg (s : string) (acc : Z) :
  PyStr.all_digits s = true -> 0 <= acc -> 0 <= PyStr.int_of_digits acc s.
Proof.
  revert acc. induction s as [|c s IH]; intros acc Hd Hacc;
    cbn [PyStr.int_of_digits]; [exact Hacc|].
  cbn [PyStr.all_digits] in Hd. apply andb_true_iff in Hd as [Hc Hs].
  apply IH; [exact Hs|].
  unfold PyStr.is_digit in Hc. cbv zeta in Hc. apply andb_true_iff in Hc as [Hlo _].
  apply Nat.leb_le in Hlo.
  assert (48 <= Z.of_nat (nat_of_ascii c)) by (apply (Nat2Z.inj_le 48); exact Hlo).
  lia.
Qed.

Lemma parse_octet_range (s : string) (v : Z) :
  IPv4.parse_octet s = Some v -> 0 <= v <= 255.
Proof.
  unfold IPv4.parse_octet. destruct s as [|c s]; [discriminate|].
  destruct (PyStr.all_digits (String c s)) eqn:Hd; [|discriminate]. cbn [negb].
  destruct (3 <? String.length (String c s))%nat; [discriminate|].
  destruct (negb (String.eqb (String c s) "0") && Ascii.eqb c "0")%bool; [discriminate|].
  destruct (Z.ltb_spec 255 (PyStr.int_of_digits 0 (String c s))); [discriminate|].
  intros [= <-].
  change (PyStr.int_of_digits (Z.of_nat (nat_of_ascii c) - 48) s)
    with (PyStr.int_of_digits 0 (String c s)).
  split; [|lia].
  apply int_of_digits_nonneg; [exact Hd|lia].
Qed.

Lemma IPv4Address_range (s : string) (ip : IPv4.t) :
  IPv4.IPv4Address s = Ok ip -> 0 <= ip < 4294967296.
Proof.
  unfold IPv4.IPv4Address. destruct s as [|c s]; [discriminate|].
  destruct (PyStr.split "." (String c s)) as [|o1 [|o2 [|o3 [|o4 [|o5 os]]]]];
    try discriminate.
  destruct (IPv4.parse_octet o1) as [a|] eqn:H1; [|discriminate].
  destruct (IPv4.parse_octet o2) as [b|] eqn:H2; [|discriminate].
  destruct (IPv4.parse_octet o3) as [d|] eqn:H3; [|discriminate].
  destruct (IPv4.parse_octet o4) as [e|] eqn:H4; [|discriminate].
  intros [= <-].
  apply parse_octet_range in H1, H2, H3, H4.
  unfold IPv4.from_octets. lia.
Qed.

Lemma first_usable_sound (netif : list snicaddr) (ip : IPv4.t) :
  first_usable netif = Ok (Some ip) ->
  exists a, In a netif /\ family a = AF_INET
            /\ IPv4.IPv4Address (address a) = Ok ip /\ usable ip = true.
Proof.
  induction netif as [|b netif IH]; simpl; [discriminate|].
  destruct (family_eqb (family b) AF_INET) eqn:Hf.
  - destruct (IPv4.IPv4Address (address b)) as [ip'|e] eqn:Hp; simpl; [|discriminate].
    destruct (usable ip') eqn:Hu.
    + intros [= <-]. exists b. repeat split; auto. now apply family_eqb_eq.
    + intros H. destruct (IH H) as (a & Hin & Ha). exists a. split; [now right|exact Ha].
  - intros H. destruct (IH H) as (a & Hin & Ha). exists a. split; [now right|exact Ha].
Qed.

Lemma dict_get_In {V : Type} (k : string) (d : list (string * V)) (v : V) :
  dict_get k d = Some v -> In (k, v) d.
Proof.
  induction d as [|[k' v'] d IH]; simpl; [discriminate|].
  destruct (String.eqb_spec k k') as [->|Hne].
  - intros [= ->]. now left.
  - intros H. right. now apply IH.
Qed.

Lemma first_special_In (enum : enumeration) (addrs : list snicaddr) :
  first_special enum = Some addrs ->
  exists n, In (n, addrs) enum /\ Spec.matches_preference n.
Proof.
  induction enum as [|[n a] enum IH]; cbn [first_special]; [discriminate|].
  destruct (PyStr.mem (PyStr.lower n) special_interfaces) eqn:Hm.
  - intros [= ->]. exists n. split; [now left|now apply matches_preference_iff].
  - intros H. destruct (IH H) as (n' & Hin & Hn'). exists n'. split; [now right|exact Hn'].
Qed.

Lemma select_netif_In (interface_name : option string) (enum : enumeration)
  (netif : list snicaddr) :
  select_netif interface_name enum = Ok netif ->
  exists n, In (n, netif) enum
            /\ match interface_name with
               | Some name => n = name
               | None => Spec.matches_preference n
               end.
Proof.
  unfold select_netif. destruct interface_name as [name|].
  - destruct (dict_get name enum) as [addrs|] eqn:Hget; [|discriminate].
    intros [= <-]. exists name. split; [now apply dict_get_In|reflexivity].
  - destruct (first_special enum) as [addrs|] eqn:Hfs; [|discriminate].
    intros [= <-]. now apply first_special_In.
Qed.

(** X1. An address the resolver returns is the address of an [AF_INET]
    entry of an enumerated interface, the named one or one on the
    preference list; it is a 32-bit value and it is neither loopback, nor
    link-local, nor reserved; and nothing was logged on the way. *)
Theorem resolved_address_is_usable
  (env : Env) (interface_name : option string) (t : list event) (ip : IPv4.t) :
  get_interface_ip env interface_name = (t, Returns (Some ip)) ->
  t = []
  /\ exists enum n netif a,
      net_if_addrs env = Ok enum
      /\ In (n, netif) enum
      /\ match interface_name with
         | Some name => n = name
         | None => Spec.matches_preference n
         end
      /\ In a netif /\ family a = AF_INET
      /\ IPv4.IPv4Address (address a) = Ok ip
      /\ 0 <= ip < 4294967296
      /\ IPv4.is_loopback ip = false
      /\ IPv4.is_link_local ip = false
      /\ IPv4.is_reserved ip = false.
Proof.
  intros Hg.
  destruct (get_interface_ip_cases env interface_name) as [(r & Hb & E)|(e & _ & E)];
    rewrite E in Hg; [|discriminate].
  injection Hg as <- ->. split; [reflexivity|].
  unfold body in Hb.
  destruct (net_if_addrs env) as [enum|] eqn:Henum; [|discriminate]. cbn [rbind] in Hb.
  destruct (select_netif interface_name enum) as [netif|] eqn:Hsel; [|discriminate].
  cbn [rbind] in Hb.
  destruct (select_netif_In _ _ _ Hsel) as (n & Hin & Hn).
  destruct (first_usable_sound _ _ Hb) as (a & Ha & Hf & Hp & Hu).
  exists enum, n, netif, a.
  unfold usable in Hu.
  apply andb_true_iff in Hu as [Hu H3]. apply andb_true_iff in Hu as [H1 H2].
  apply negb_true_iff in H1, H2, H3.
  repeat split; auto; apply (IPv4Address_range _ _ Hp).
Qed.

Lemma resolved_address_is_usable_witness :
  @nil event = []
  /\ exists enum n netif a,
      net_if_addrs Examples.env = Ok enum
      /\ In (n, netif) enum
      /\ Spec.matches_preference n
      /\ In a netif /\ family a = AF_INET
      /\ IPv4.IPv4Address (address a) = Ok 3405803783
      /\ 0 <= 3405803783 < 4294967296
      /\ IPv4.is_loopback 3405803783 = false
      /\ IPv4.is_link_local 3405803783 = false
      /\ IPv4.is_reserved 3405803783 = false.
Proof.
  apply (resolved_address_is_usable Examples.env None [] 3405803783). reflexivity.
Defined.

(** X2. The heuristic settles on the first interface of the preference
    list and stays with it: when that interface has no usable address the
    resolver returns [None], whatever the interfaces enumerated after it
    carry. *)
Theorem heuristic_stays_with_first_candidate
  (env : Env) (pre post : enumeration) (n : string) (addrs : list snicaddr) :
  net_if_addrs env = Ok (pre ++ (n, addrs) :: post) ->
  (forall n' a', In (n', a') pre -> ~ Spec.matches_preference n') ->
  Spec.matches_preference n ->
  forallb Spec.well_formed addrs = true ->
  (forall b, In b addrs -> Spec.usable_ipv4 b = None) ->
  get_interface_ip env None = ([], Returns None).
Proof.
  intros Henum Hpre Hn Hwf Hnone.
  apply get_interface_ip_ok. unfold body. rewrite Henum. cbn [rbind].
  unfold select_netif.
  rewrite (first_special_first pre post n addrs).
  - cbn [rbind]. rewrite <- (app_nil_r addrs).
    now rewrite (first_usable_skip addrs [] Hwf Hnone).
  - intros n' a' Hin. specialize (Hpre n' a' Hin).
    rewrite matches_preference_iff in Hpre.
    now destruct (PyStr.mem (PyStr.lower n') special_interfaces).
  - now apply matches_preference_iff.
Qed.

Lemma heuristic_stays_with_first_candidate_witness :
  get_interface_ip Scenarios.env_two_candidates None = ([], Returns None).
Proof.
  apply (heuristic_stays_with_first_candidate Scenarios.env_two_candidates
           [("lo"%string, [mkAddr AF_INET "127.0.0.1"])]
           [("Ethernet"%string, [mkAddr AF_INET "192.0.2.10"])]
           "WLAN"%string
           [mkAddr AF_LINK "aa:bb:cc:dd:ee:ff"; mkAddr AF_INET "169.254.10.20"]).
  - reflexivity.
  - intros n' a' [[= <- <-]|[]] (alias & Hin & Heq).
    simpl in Hin. destruct Hin as [<-|[<-|[<-|[]]]]; discriminate.
  - exists "wlan"%string. split; [simpl; auto|reflexivity].
  - reflexivity.
  - intros b [<-|[<-|[]]]; reflexivity.
Defined.

Lemma lower_app (a b : string) :
  PyStr.lower (a ++ b) = (PyStr.lower a ++ PyStr.lower b)%string.
Proof. induction a as [|c a IH]; simpl; [reflexivity|now rewrite IH]. Qed.

(** X3. The heuristic compares whole names: an alias of the preference
    list followed by anything, as in [wlan0] or [Ethernet 2], is not on
    the list, in any case of the letters. *)
Theorem heuristic_compares_whole_names (name alias suffix : string) :
  In alias special_interfaces ->
  PyStr.lower name = alias ->
  suffix <> ""%string ->
  PyStr.mem (PyStr.lower (name ++ suffix)) special_interfaces = false.
Proof.
  intros Hin Hname Hs. rewrite lower_app, Hname.
  assert (Hl : PyStr.lower suffix <> ""%string) by (destruct suffix; [congruence|discriminate]).
  destruct (PyStr.lower suffix) as [|c s]; [congruence|].
  unfold special_interfaces in *. simpl in Hin.
  destruct Hin as [<-|[<-|[<-|[]]]]; reflexivity.
Qed.

Lemma heuristic_compares_whole_names_witness :
  PyStr.mem (PyStr.lower ("WLAN" ++ "0")) special_interfaces = false.
Proof.
  apply (heuristic_compares_whole_names "WLAN" "wlan" "0");
    [simpl; auto|reflexivity|discriminate].
Defined.

End ResolverExtras.

(** ** The command line and the settings *)

Section SettingsExtras.

Import Main.

(** X4. The TTL, the timeout, the protocol and the log level of a run
    are those of the command line, with the parser's defaults 300, 5,
    [udp] and [info] for the options left out; the values the settings
    file gives for these four fields never reach [main], and two
    settings that [Config()] treats alike (it loads both, or refuses
    both) and that agree on the other fields give the same run. *)
Theorem settings_defaults_are_shadowed (env : Env) (settings : Config) (argv : Args) :
  (forall t args,
      parse_args argv = (t, Returns args) ->
      ttl (normalise_zone (override settings args)) = or_else (arg_ttl argv) 300
      /\ timeout (normalise_zone (override settings args)) = or_else (arg_timeout argv) 5
      /\ protocol (normalise_zone (override settings args))
         = or_else (arg_protocol argv) "udp"%string
      /\ log_level (normalise_zone (override settings args))
         = or_else (arg_log_level argv) "info"%string)
  /\ (forall settings',
         tsig settings' = tsig settings ->
         name_server settings' = name_server settings ->
         zone settings' = zone settings ->
         hostname settings' = hostname settings ->
         interface settings' = interface settings ->
         validated settings' = validated settings ->
         script env settings' argv = script env settings argv).
Proof.
  split.
  - intros t args Hp. apply parse_args_returns in Hp as (_ & -> & _). repeat split.
  - intros settings' Hk Hn Hz Hh Hi Hv. unfold script, Config_init.
    destruct (parse_args_cases argv) as [->|[[-> _]|(args & Hp & _)]];
      [reflexivity|reflexivity|].
    rewrite Hp. change (@nil event, Returns args) with (ret args). rewrite !bind_ret_l.
    rewrite Hv. destruct (validated settings); [|reflexivity].
    rewrite !bind_ret_l.
    apply parse_args_returns in Hp as (_ & -> & _).
    unfold override, normalise_zone. cbn. now rewrite Hk, Hn, Hz, Hh, Hi.
Qed.

Lemma settings_defaults_are_shadowed_witness :
  script Examples.env Scenarios.settings_other_defaults Examples.no_args
  = script Examples.env Examples.settings Examples.no_args.
Proof.
  apply (proj2 (settings_defaults_are_shadowed Examples.env Examples.settings
                  Examples.no_args) Scenarios.settings_other_defaults);
    reflexivity.
Defined.

Lemma endswith_dot_append (s : string) : PyStr.endswith_dot (s ++ ".") = true.
Proof.
  induction s as [|c s IH]; [reflexivity|].
  cbn [append PyStr.endswith_dot]. destruct (s ++ ".")%string eqn:E; [|exact IH].
  destruct s; discriminate.
Qed.

(** X5. After the normalisation of the script the zone ends with a
    dot: a zone that has one is kept as it is, any other gets exactly one
    appended, no other field changes, and normalising twice changes
    nothing more. *)
Theorem zone_normalisation (config : Config) :
  PyStr.endswith_dot (zone (normalise_zone config)) = true
  /\ (PyStr.endswith_dot (zone config) = true -> normalise_zone config = config)
  /\ (PyStr.endswith_dot (zone config) = false ->
      zone (normalise_zone config) = (zone config ++ ".")%string)
  /\ normalise_zone (normalise_zone config) = normalise_zone config
  /\ (tsig (normalise_zone config) = tsig config
      /\ name_server (normalise_zone config) = name_server config
      /\ hostname (normalise_zone config) = hostname config
      /\ ttl (normalise_zone config) = ttl config
      /\ timeout (normalise_zone config) = timeout config
      /\ protocol (normalise_zone config) = protocol config
      /\ interface (normalise_zone config) = interface config
      /\ log_level (normalise_zone config) = log_level config).
Proof.
  assert (Hend : PyStr.endswith_dot (zone (normalise_zone config)) = true).
  { unfold normalise_zone. cbn [zone].
    destruct (PyStr.endswith_dot (zone config)) eqn:E; cbn [negb];
      [exact E|apply endswith_dot_append]. }
  assert (Hkeep : forall c, PyStr.endswith_dot (zone c) = true -> normalise_zone c = c).
  { intros c E. unfold normalise_zone. rewrite E. now destruct c. }
  split; [exact Hend|]. split; [apply Hkeep|]. split.
  - intros E. unfold normalise_zone. cbn [zone]. now rewrite E.
  - split; [now apply Hkeep|]. repeat split.
Qed.

Lemma zone_normalisation_witness :
  normalise_zone Examples.settings = Examples.settings.
Proof.
  apply (proj1 (proj2 (zone_normalisation Examples.settings))). reflexivity.
Defined.

Lemma main_bare_errors (env : Env) (config : Config) (msg : string) :
  In (Log ERROR [Lit msg] false) (fst (main env config)) ->
  check_config config = ([Log ERROR [Lit msg] false], Exits 1).
Proof.
  destruct (main_cases env config)
    as [(m & Hc & ->)|(_ & [(e & _ & ->)|(kr & t & _ & [(Hg & ->)|(ip & Hg & H)])])].
  - simpl. intros [[= <-]|[]]. exact Hc.
  - intros [].
  - simpl. rewrite in_app_iff. intros [Hin|[E|[]]]; [|discriminate].
    now apply (proj2 (resolver_trace _ _ _ _ Hg)) in Hin.
  - destruct H as [(e & ->)|(u0 & u & _ & _ & ->)]; simpl; rewrite in_app_iff.
    + intros [Hin|[E|[]]]; [|discriminate].
      now apply (proj2 (resolver_trace _ _ _ _ Hg)) in Hin.
    + intros [Hin|[E|Hin]]; [|discriminate|].
      * now apply (proj2 (resolver_trace _ _ _ _ Hg)) in Hin.
      * destruct (submit_cases env config u)
          as [(e & Hs)|(f & w & tl & o & _ & _ & Hs & _ & Htl & _)];
          rewrite Hs in Hin; simpl in Hin; [contradiction|].
        destruct Hin as [E|Hin]; [discriminate|]. now apply Htl in Hin.
Qed.

(** X6. In a run of the script the zone check of [main] never
    reports: a record that is a bare error text is the complaint about
    the name server, the host name or the keys, never the one about the
    zone. *)
Theorem zone_check_never_reports
  (env : Env) (settings : Config) (argv : Args) (msg : string) :
  In (Log ERROR [Lit msg] false) (fst (script env settings argv)) ->
  (msg = Records.no_name_server \/ msg = Records.no_hostname \/ msg = Records.no_keys)
  /\ msg <> Records.no_zone.
Proof.
  destruct (script_cases env settings argv)
    as [->|[[-> _]|[[-> _]|(args & _ & _ & ->)]]]; try (intros []).
  intros Hin. apply main_bare_errors in Hin.
  destruct (check_config_spec (normalise_zone (override settings args)))
    as [(Hc & _)|(m & Hc & Hm)]; rewrite Hc in Hin; [discriminate|].
  injection Hin as <-.
  destruct Hm as [(-> & _)|[(-> & Hz)|[(-> & _)|(-> & _)]]].
  - split; [auto|discriminate].
  - now apply normalised_zone_not_empty in Hz.
  - split; [auto|discriminate].
  - split; [auto|discriminate].
Qed.

Lemma zone_check_never_reports_witness :
  (Records.no_name_server = Records.no_name_server
   \/ Records.no_name_server = Records.no_hostname
   \/ Records.no_name_server = Records.no_keys)
  /\ Records.no_name_server <> Records.no_zone.
Proof.
  apply (zone_check_never_reports Examples.env Scenarios.settings_without_name_server
           Examples.no_args Records.no_name_server).
  simpl. left. reflexivity.
Defined.

End SettingsExtras.

(** ** What a transport call presupposes and carries *)

Section CallExtras.

Import Main.

(** Everything that holds when [main] calls the transport. *)
Lemma main_call_full_inv (env : Env) (config : Config) (u : DNS.UpdateMessage)
  (p w : string) (o : Z) :
  In (Call p u w o) (fst (main env config)) ->
  check_config config = ([], Returns tt)
  /\ name_server config = NsAddress w
  /\ p = protocol config /\ o = timeout config
  /\ (exists f, dict_get (protocol config) (dns_query env) = Some (Function f))
  /\ exists kr t ip u0,
      tsigkeyring_from_text env (keyring_text (tsig config)) = Ok kr
      /\ Resolver.get_interface_ip env (interface config) = (t, Returns (Some ip))
      /\ Builder.Update env (zone config) kr = Ok u0
      /\ Builder.replace env u0 (hostname config) (ttl config) (IPv4.compressed ip) = Ok u.
Proof.
  destruct (main_cases env config)
    as [(m & Hc & ->)|(Hc & [(e & _ & ->)|(kr & t & Hk & [(Hg & ->)|(ip & Hg & H)])])].
  - simpl. intros [E|[]]. discriminate.
  - intros [].
  - simpl. rewrite in_app_iff. intros [Hin|[E|[]]]; [|discriminate].
    now apply (calls_zero_no_call _ _ _ _ _ (proj1 (resolver_trace _ _ _ _ Hg))) in Hin.
  - destruct H as [(e & ->)|(u0 & u1 & Hu0 & Hu1 & ->)]; simpl; rewrite in_app_iff.
    + intros [Hin|[E|[]]]; [|discriminate].
      now apply (calls_zero_no_call _ _ _ _ _ (proj1 (resolver_trace _ _ _ _ Hg))) in Hin.
    + intros [Hin|[E|Hin]]; [|discriminate|].
      * now apply (calls_zero_no_call _ _ _ _ _ (proj1 (resolver_trace _ _ _ _ Hg))) in Hin.
      * destruct (submit_cases env config u1)
          as [(e & Hs)|(f & w' & tl & o' & Hf & Hns & Hs & Htl & _ & _)];
          rewrite Hs in Hin; simpl in Hin; [contradiction|].
        destruct Hin as [[= <- <- <- <-]|Hin];
          [|now apply (calls_zero_no_call _ _ _ _ _ Htl) in Hin].
        repeat split; auto; [now exists f|].
        now exists kr, t, ip, u0.
Qed.

(** X7. [main] calls the transport only when the four checks have
    passed (a name server, a non-empty zone, a non-empty host name, at
    least one key), the keyring was accepted, the resolver returned an
    address, and the protocol names a function of the query module; the
    name server is then an address object and its text is the
    destination of the call. *)
Theorem call_only_after_checks (env : Env) (config : Config) (u : DNS.UpdateMessage)
  (p w : string) (o : Z) :
  In (Call p u w o) (fst (main env config)) ->
  name_server config = NsAddress w
  /\ zone config <> ""%string
  /\ hostname config <> ""%string
  /\ tsig config <> []
  /\ (exists kr, tsigkeyring_from_text env (keyring_text (tsig config)) = Ok kr)
  /\ (exists t ip, Resolver.get_interface_ip env (interface config) = (t, Returns (Some ip)))
  /\ (exists f, dict_get p (dns_query env) = Some (Function f)).
Proof.
  intros Hin.
  apply main_call_full_inv in Hin
    as (Hc & Hns & -> & -> & Hf & kr & t & ip & u0 & Hk & Hg & _ & _).
  destruct (check_config_spec config) as [(_ & _ & Hz & Hh & Ht)|(m & Hc' & _)];
    [|rewrite Hc in Hc'; discriminate].
  repeat split; auto; [now exists kr|now exists t, ip].
Qed.

Lemma call_only_after_checks_witness :
  name_server Examples.settings = NsAddress "192.0.2.53"
  /\ zone Examples.settings <> ""%string
  /\ hostname Examples.settings <> ""%string
  /\ tsig Examples.settings <> []
  /\ (exists kr,
         tsigkeyring_from_text Examples.env (keyring_text (tsig Examples.settings)) = Ok kr)
  /\ (exists t ip,
         Resolver.get_interface_ip Examples.env (interface Examples.settings)
         = (t, Returns (Some ip)))
  /\ (exists f, dict_get "udp" (dns_query Examples.env) = Some (Function f)).
Proof.
  apply (call_only_after_checks Examples.env Examples.settings
           (Examples.update_with_ttl 3600) "udp" "192.0.2.53" 5).
  vm_compute. right. left. reflexivity.
Defined.

(** X8. The transport call of [main] is made with the configured
    protocol name and timeout, and its message is the one [Update] and
    [replace] build from the configured zone, host name and TTL and from
    the text of the address the resolver returned: an update section
    that deletes the A records of the name and adds one A record with
    that TTL and the four octets of that address. *)
Theorem call_carries_configuration (env : Env) (config : Config) (u : DNS.UpdateMessage)
  (p w : string) (o : Z) :
  In (Call p u w o) (fst (main env config)) ->
  p = protocol config /\ o = timeout config
  /\ exists kr t ip u0 n,
      Resolver.get_interface_ip env (interface config) = (t, Returns (Some ip))
      /\ Builder.Update env (zone config) kr = Ok u0
      /\ Builder.replace env u0 (hostname config) (ttl config) (IPv4.compressed ip) = Ok u
      /\ DNS.update (DNS.message u)
         = [Builder.delete_rrset n DNS.A;
            Builder.add_rr n DNS.A (ttl config) (map DNS.byte_of_Z (IPv4.octets ip))].
Proof.
  intros Hin.
  apply main_call_full_inv in Hin
    as (_ & _ & -> & -> & _ & kr & t & ip & u0 & _ & Hg & Hu0 & Hu).
  split; [reflexivity|]. split; [reflexivity|].
  assert (Hsec : exists n,
             DNS.update (DNS.message u)
             = [Builder.delete_rrset n DNS.A;
                Builder.add_rr n DNS.A (ttl config) (map DNS.byte_of_Z (IPv4.octets ip))]).
  { revert Hu0 Hu. unfold Builder.Update, Builder.replace.
    destruct (Builder.name_from_text env (zone config) (Some DNS.root)) as [z|];
      [|discriminate].
    cbn [rbind]. intros [= <-].
    destruct (Builder.name_from_text env (hostname config) None) as [n|]; [|discriminate].
    cbn [rbind]. rewrite inet_aton_compressed. cbn [rbind].
    intros [= <-]. now exists n. }
  destruct Hsec as [n Hsec]. now exists kr, t, ip, u0, n.
Qed.

Lemma call_carries_configuration_witness :
  "udp"%string = protocol Examples.settings /\ 5 = timeout Examples.settings
  /\ exists kr t ip u0 n,
      Resolver.get_interface_ip Examples.env (interface Examples.settings)
      = (t, Returns (Some ip))
      /\ Builder.Update Examples.env (zone Examples.settings) kr = Ok u0
      /\ Builder.replace Examples.env u0 (hostname Examples.settings)
           (ttl Examples.settings) (IPv4.compressed ip)
         = Ok (Examples.update_with_ttl 3600)
      /\ DNS.update (DNS.message (Examples.update_with_ttl 3600))
         = [Builder.delete_rrset n DNS.A;
            Builder.add_rr n DNS.A (ttl Examples.settings)
              (map DNS.byte_of_Z (IPv4.octets ip))].
Proof.
  apply (call_carries_configuration Examples.env Examples.settings
           (Examples.update_with_ttl 3600) "udp" "192.0.2.53" 5).
  vm_compute. right. left. reflexivity.
Defined.

Lemma calls_resolver_prefix (env : Env) (interface_name : option string)
  (t rest : list event) (r : option IPv4.t) :
  Resolver.get_interface_ip env interface_name = (t, Returns r) ->
  Spec.calls (t ++ rest) = Spec.calls rest.
Proof.
  intros Hg. rewrite calls_app, (proj1 (resolver_trace _ _ _ _ Hg)). reflexivity.
Qed.

Lemma main_outcomes (env : Env) (config : Config) :
  (snd (main env config) = Returns tt -> Spec.calls (fst (main env config)) = 1%nat)
  /\ (forall c, snd (main env config) = Exits c ->
                c = 1 /\ Spec.calls (fst (main env config)) = 0%nat)
  /\ ((forall w, name_server config <> NsAddress w) ->
      Spec.calls (fst (main env config)) = 0%nat
      /\ snd (main env config) <> Returns tt).
Proof.
  destruct (main_cases env config)
    as [(m & Hc & ->)|(Hc & [(e & _ & ->)|(kr & t & Hk & [(Hg & ->)|(ip & Hg & H)])])];
    cbn [fst snd].
  - split; [discriminate|]. split; [intros c [= <-]; now split|].
    intros _. split; [reflexivity|discriminate].
  - split; [discriminate|]. split; [discriminate|].
    intros _. split; [reflexivity|discriminate].
  - rewrite (calls_resolver_prefix _ _ _ _ _ Hg).
    split; [discriminate|]. split; [intros c [= <-]; now split|].
    intros _. split; [reflexivity|discriminate].
  - destruct H as [(e & ->)|(u0 & u & _ & _ & ->)]; cbn [fst snd];
      rewrite (calls_resolver_prefix _ _ _ _ _ Hg).
    + split; [discriminate|]. split; [discriminate|].
      intros _. split; [reflexivity|discriminate].
    + destruct (submit_cases env config u)
        as [(e & Hs)|(f & w & tl & o & _ & Hns & Hs & Htl & _ & Ho)];
        rewrite Hs; cbn [fst snd Spec.calls].
      * split; [discriminate|]. split; [discriminate|].
        intros _. split; [reflexivity|discriminate].
      * rewrite Htl. split; [reflexivity|]. split.
        -- intros c Hc'. destruct Ho as [->|(e & ->)]; discriminate.
        -- intros Hno. now destruct (Hno w).
Qed.

(** X9. How a run of the script ends tells how far it went.  A run
    that returns normally has called the transport exactly once, whether
    the server accepted the update, rejected it, or the exchange raised a
    [DNSException]; a run that ends with [sys.exit] made no call and has
    status 0 (the help option), 2 (a value outside the choices of an
    option) or 1 (a check of [main] or the resolver); no run makes more
    than one call. *)
Theorem run_outcomes (env : Env) (settings : Config) (argv : Args) :
  (snd (script env settings argv) = Returns tt ->
   Spec.calls (fst (script env settings argv)) = 1%nat)
  /\ (forall c, snd (script env settings argv) = Exits c ->
                ((c = 0 /\ arg_help argv = true) \/ c = 1 \/ c = 2)
                /\ Spec.calls (fst (script env settings argv)) = 0%nat)
  /\ (Spec.calls (fst (script env settings argv)) <= 1)%nat.
Proof.
  destruct (script_cases env settings argv)
    as [->|[[-> Hh]|[[-> _]|(args & _ & _ & ->)]]].
  - cbn [fst snd Spec.calls]. split; [discriminate|]. split; [|lia].
    intros c [= <-]. split; [auto|reflexivity].
  - cbn [fst snd Spec.calls]. split; [discriminate|]. split; [|lia].
    intros c [= <-]. split; [auto|reflexivity].
  - cbn [fst snd Spec.calls]. split; [discriminate|]. split; [discriminate|lia].
  - destruct (main_outcomes env (normalise_zone (override settings args)))
      as (H1 & H2 & _).
    split; [exact H1|]. split.
    + intros c Hc. destruct (H2 c Hc) as [-> H0]. split; [auto|exact H0].
    + apply main_calls.
Qed.

Lemma run_outcomes_witness :
  Spec.calls (fst (script Examples.env Examples.settings Examples.no_args)) = 1%nat
  /\ (((0 = 0 /\ arg_help Scenarios.args_help = true) \/ 0 = 1 \/ 0 = 2)
      /\ Spec.calls (fst (script Examples.env Examples.settings Scenarios.args_help))
         = 0%nat).
Proof.
  split.
  - apply (proj1 (run_outcomes Examples.env Examples.settings Examples.no_args)).
    reflexivity.
  - apply (proj1 (proj2 (run_outcomes Examples.env Examples.settings Scenarios.args_help)) 0).
    reflexivity.
Defined.

(** X10. A name server given on the command line is stored as the
    plain string of the option, which has no [compressed] attribute: such
    a run never calls the transport and never returns normally, it ends
    at a check, at the resolver, or with an exception. *)
Theorem command_line_name_server_never_sent
  (env : Env) (settings : Config) (argv : Args) (s : string) :
  arg_name_server argv = Some s ->
  Spec.calls (fst (script env settings argv)) = 0%nat
  /\ snd (script env settings argv) <> Returns tt.
Proof.
  intros Hs.
  destruct (script_cases env settings argv)
    as [->|[[-> _]|[[-> _]|(args & Hp & _ & ->)]]];
    try (split; [reflexivity|discriminate]).
  - apply parse_args_returns in Hp as (_ & -> & _).
    apply main_outcomes. intros w. unfold normalise_zone, override. cbn.
    rewrite Hs. discriminate.
Qed.

Lemma command_line_name_server_never_sent_witness :
  Spec.calls (fst (script Examples.env Examples.settings Scenarios.args_name_server)) = 0%nat
  /\ snd (script Examples.env Examples.settings Scenarios.args_name_server) <> Returns tt.
Proof.
  apply (command_line_name_server_never_sent Examples.env Examples.settings
           Scenarios.args_name_server "192.0.2.53").
  reflexivity.
Defined.

End CallExtras.

(** ** The keyring, the parser's choices and the log level *)

Section KeyringExtras.

Import Main.

Lemma dict_get_set_same {V : Type} (k : string) (v : V) (d : list (string * V)) :
  dict_get k (dict_set k v d) = Some v.
Proof.
  induction d as [|[k' v'] d IH]; simpl.
  - now rewrite String.eqb_refl.
  - destruct (String.eqb_spec k k') as [->|Hne]; simpl.
    + now rewrite String.eqb_refl.
    + destruct (String.eqb_spec k k'); [contradiction|exact IH].
Qed.

Lemma dict_get_set_other {V : Type} (k k' : string) (v : V) (d : list (string * V)) :
  k' <> k -> dict_get k' (dict_set k v d) = dict_get k' d.
Proof.
  intros Hne. induction d as [|[k2 v2] d IH]; simpl.
  - destruct (String.eqb_spec k' k); [contradiction|reflexivity].
  - destruct (String.eqb_spec k k2) as [->|Hk]; simpl.
    + destruct (String.eqb_spec k' k2); [contradiction|reflexivity].
    + destruct (String.eqb_spec k' k2); [reflexivity|exact IH].
Qed.

Lemma dict_set_keys {V : Type} (k k' : string) (v : V) (d : list (string * V)) :
  In k' (map fst (dict_set k v d)) <-> k' = k \/ In k' (map fst d).
Proof.
  induction d as [|[k2 v2] d IH]; simpl.
  - intuition auto.
  - destruct (String.eqb_spec k k2) as [->|Hk]; simpl.
    + intuition auto.
    + rewrite IH. intuition auto.
Qed.

Lemma dict_set_NoDup {V : Type} (k : string) (v : V) (d : list (string * V)) :
  NoDup (map fst d) -> NoDup (map fst (dict_set k v d)).
Proof.
  induction d as [|[k2 v2] d IH]; simpl; intros Hnd.
  - constructor; [intros []|constructor].
  - inversion Hnd as [|x l Hnotin Hnd']; subst.
    destruct (String.eqb_spec k k2) as [->|Hk]; simpl.
    + now constructor.
    + constructor; [|now apply IH].
      rewrite dict_set_keys. intros [E|Hin]; [congruence|contradiction].
Qed.

Lemma keyring_fold_NoDup (keys : list TSIGKey) (d : list (string * (string * string))) :
  NoDup (map fst d) ->
  NoDup (map fst (fold_left (fun d k => dict_set (name k) (algorithm k, secret k) d)
                    keys d)).
Proof.
  revert d. induction keys as [|k keys IH]; intros d Hd; simpl; [exact Hd|].
  apply IH. now apply dict_set_NoDup.
Qed.

Lemma keyring_fold_other (keys : list TSIGKey) (d : list (string * (string * string)))
  (n : string) :
  (forall k, In k keys -> name k <> n) ->
  dict_get n (fold_left (fun d k => dict_set (name k) (algorithm k, secret k) d) keys d)
  = dict_get n d.
Proof.
  revert d. induction keys as [|k keys IH]; intros d Hk; simpl; [reflexivity|].
  rewrite IH by (intros k' Hin; apply Hk; now right).
  apply dict_get_set_other. intros E. apply (Hk k); [now left|now symmetry].
Qed.

(** X11. The keyring handed to the library has one entry per key
    name, and for a name that several keys carry it is the last of them,
    in the order of [config.tsig], whose algorithm and secret are
    kept. *)
Theorem keyring_last_key_wins (keys pre post : list TSIGKey) (k : TSIGKey) :
  keys = pre ++ k :: post ->
  (forall k', In k' post -> name k' <> name k) ->
  dict_get (name k) (keyring_text keys) = Some (algorithm k, secret k)
  /\ NoDup (map fst (keyring_text keys)).
Proof.
  intros -> Hpost. unfold keyring_text. split.
  - rewrite fold_left_app. cbn [fold_left].
    rewrite keyring_fold_other by exact Hpost.
    apply dict_get_set_same.
  - apply keyring_fold_NoDup. constructor.
Qed.

Lemma keyring_last_key_wins_witness :
  dict_get "ddns-key"
    (keyring_text [mkKey "ddns-key" "hmac-sha256" "c2VjcmV0"; mkKey "other" "hmac-sha384" "eA==";
                   mkKey "ddns-key" "hmac-sha512" "b3RoZXI="])
  = Some ("hmac-sha512"%string, "b3RoZXI="%string)
  /\ NoDup (map fst
              (keyring_text [mkKey "ddns-key" "hmac-sha256" "c2VjcmV0";
                             mkKey "other" "hmac-sha384" "eA==";
                             mkKey "ddns-key" "hmac-sha512" "b3RoZXI="])).
Proof.
  apply (keyring_last_key_wins _
           [mkKey "ddns-key" "hmac-sha256" "c2VjcmV0"; mkKey "other" "hmac-sha384" "eA=="]
           [] (mkKey "ddns-key" "hmac-sha512" "b3RoZXI=")).
  - reflexivity.
  - intros k' [].
Defined.

(** X12. A key given on the command line (both [--tsig-name] and
    [--tsig-secret]) comes after the keys of the settings, so in the
    keyring it replaces a key of the settings with the same name and
    leaves the entries of all other names as they were; with only one of
    the two options the keys of the settings are used unchanged. *)
Theorem command_line_key_replaces_same_name (settings : Config) (args : Args) :
  (forall n s,
      arg_tsig_name args = Some n ->
      arg_tsig_secret args = Some s ->
      dict_get n (keyring_text (tsig (override settings args)))
      = Some (or_else (arg_tsig_algorithm args) "hmac-sha256"%string, s)
      /\ (forall n', n' <> n ->
                     dict_get n' (keyring_text (tsig (override settings args)))
                     = dict_get n' (keyring_text (tsig settings))))
  /\ ((arg_tsig_name args = None \/ arg_tsig_secret args = None) ->
      tsig (override settings args) = tsig settings).
Proof.
  split.
  - intros n s Hn Hs. unfold override. cbn [tsig]. rewrite Hn, Hs.
    unfold keyring_text. rewrite fold_left_app. cbn [fold_left name algorithm secret].
    split; [apply dict_get_set_same|].
    intros n' Hne. now apply dict_get_set_other.
  - intros H. unfold override. cbn [tsig].
    destruct (arg_tsig_name args), (arg_tsig_secret args); try reflexivity.
    destruct H; discriminate.
Qed.

Lemma command_line_key_replaces_same_name_witness :
  dict_get "ddns-key"
    (keyring_text (tsig (override Examples.settings Scenarios.args_same_key)))
  = Some ("hmac-sha512"%string, "b3RoZXI="%string)
  /\ (forall n', n' <> "ddns-key"%string ->
                 dict_get n'
                   (keyring_text (tsig (override Examples.settings Scenarios.args_same_key)))
                 = dict_get n' (keyring_text (tsig Examples.settings))).
Proof.
  apply (proj1 (command_line_key_replaces_same_name Examples.settings
                  Scenarios.args_same_key) "ddns-key"%string "b3RoZXI="%string);
    reflexivity.
Defined.

(** X13. A protocol, log level or TSIG algorithm outside the choices
    of its option ends the run in the parser: status 2, nothing logged,
    no settings merged, [main] not entered. *)
Theorem invalid_choice_ends_in_the_parser (env : Env) (settings : Config) (argv : Args) :
  ((exists p, arg_protocol argv = Some p
              /\ PyStr.mem p ["tcp"; "udp"]%string = false)
   \/ (exists l, arg_log_level argv = Some l
                 /\ PyStr.mem l ["info"; "debug"]%string = false)
   \/ (exists a, arg_tsig_algorithm argv = Some a
                 /\ PyStr.mem a ["hmac-sha256"; "hmac-sha384"; "hmac-sha512"]%string
                    = false)) ->
  script env settings argv = ([], Exits 2).
Proof.
  intros H. unfold script.
  assert (Hp : parse_args argv = ([], Exits 2)).
  { unfold parse_args, choice.
    destruct H as [(p & -> & ->)|[(l & Hl & Hm)|(a & Ha & Hm)]].
    - reflexivity.
    - rewrite Hl, Hm.
      destruct (arg_protocol argv) as [p|]; [destruct (PyStr.mem p _)|]; reflexivity.
    - rewrite Ha, Hm.
      destruct (arg_protocol argv) as [p|]; [destruct (PyStr.mem p _)|];
        (destruct (arg_log_level argv) as [l|]; [destruct (PyStr.mem l _)|]);
        reflexivity. }
  now rewrite Hp.
Qed.

Lemma invalid_choice_ends_in_the_parser_witness :
  script Examples.env Examples.settings Scenarios.args_sctp = ([], Exits 2).
Proof.
  apply (invalid_choice_ends_in_the_parser Examples.env Examples.settings
           Scenarios.args_sctp).
  left. exists "sctp"%string. split; reflexivity.
Defined.

(** X14. The level [setup_logging] computes for a run is DEBUG
    exactly when the command line says [--log-level debug], and INFO
    otherwise; the log level of the settings file cannot turn debug
    records on. *)
Theorem debug_only_from_the_command_line
  (settings : Config) (argv args : Args) (t : list event) :
  parse_args argv = (t, Returns args) ->
  (Logging.setup_logging (log_level (normalise_zone (override settings args))) = DEBUG
   <-> arg_log_level argv = Some "debug"%string)
  /\ (Logging.setup_logging (log_level (normalise_zone (override settings args))) = INFO
      <-> arg_log_level argv <> Some "debug"%string).
Proof.
  intros Hp. apply parse_args_returns in Hp as (_ & -> & _ & Hl & _).
  unfold normalise_zone, override. cbn [log_level arg_log_level or_else].
  destruct (arg_log_level argv) as [l|]; cbn [or_else] in *.
  - apply mem_In in Hl. simpl in Hl. destruct Hl as [<-|[<-|[]]].
    + split; (split; [try discriminate; reflexivity|]); [discriminate|reflexivity].
    + split; (split; [try reflexivity|]); try reflexivity.
      * discriminate.
      * intros H. now destruct H.
  - split; (split; [try discriminate; reflexivity|]); [discriminate|reflexivity].
Qed.

Lemma debug_only_from_the_command_line_witness :
  (Logging.setup_logging
     (log_level (normalise_zone
                   (override Examples.settings
                      (mkArgs None None None (Some 300) (Some 5) (Some "udp"%string) None
                         (Some "debug"%string) None (Some "hmac-sha256"%string) None false))))
   = DEBUG
   <-> arg_log_level Scenarios.args_debug = Some "debug"%string)
  /\ (Logging.setup_logging
        (log_level (normalise_zone
                      (override Examples.settings
                         (mkArgs None None None (Some 300) (Some 5) (Some "udp"%string) None
                            (Some "debug"%string) None (Some "hmac-sha256"%string) None false))))
      = INFO
      <-> arg_log_level Scenarios.args_debug <> Some "debug"%string).
Proof.
  apply (debug_only_from_the_command_line Examples.settings Scenarios.args_debug _ []).
  reflexivity.
Defined.

End KeyringExtras.

(** ** What the log says about an exchange *)

Section LogExtras.

Import Main.

(** X15. The level of the classification record tells success from
    rejection: it is INFO, without exception details, exactly for
    NOERROR, and ERROR with exception details for every other status,
    named or not. *)
Theorem rejections_are_logged_as_errors (config : Config) (response : DNS.Response) :
  exists msg,
    classify config response
    = ([Log (if DNS.resp_rcode response =? DNS.NOERROR then INFO else ERROR) msg
          (negb (DNS.resp_rcode response =? DNS.NOERROR))],
       Returns tt).
Proof.
  unfold classify.
  destruct (DNS.resp_rcode response =? DNS.NOERROR); [now eexists|].
  repeat match goal with
         | |- context [if ?c then _ else _] => destruct c
         end; now eexists.
Qed.

(** X16. The record that announces the update comes right before the
    transport call, and the address it shows is the one the resolver
    returned and the update publishes. *)
Theorem announcement_precedes_the_call (env : Env) (config : Config)
  (u : DNS.UpdateMessage) (p w : string) (o : Z) :
  In (Call p u w o) (fst (main env config)) ->
  exists t ip tl u0 kr,
    fst (main env config)
    = t ++ Records.announce_record config ip :: Call p u w o :: tl
    /\ Resolver.get_interface_ip env (interface config) = (t, Returns (Some ip))
    /\ Builder.Update env (zone config) kr = Ok u0
    /\ Builder.replace env u0 (hostname config) (ttl config) (IPv4.compressed ip) = Ok u
    /\ Spec.calls t = 0%nat /\ Spec.calls tl = 0%nat.
Proof.
  destruct (main_cases env config)
    as [(m & Hc & ->)|(Hc & [(e & _ & ->)|(kr & t & Hk & [(Hg & ->)|(ip & Hg & H)])])].
  - simpl. intros [E|[]]. discriminate.
  - intros [].
  - simpl. rewrite in_app_iff. intros [Hin|[E|[]]]; [|discriminate].
    now apply (calls_zero_no_call _ _ _ _ _ (proj1 (resolver_trace _ _ _ _ Hg))) in Hin.
  - destruct H as [(e & ->)|(u0 & u1 & Hu0 & Hu1 & ->)]; simpl; rewrite in_app_iff.
    + intros [Hin|[E|[]]]; [|discriminate].
      now apply (calls_zero_no_call _ _ _ _ _ (proj1 (resolver_trace _ _ _ _ Hg))) in Hin.
    + intros [Hin|[E|Hin]]; [|discriminate|].
      * now apply (calls_zero_no_call _ _ _ _ _ (proj1 (resolver_trace _ _ _ _ Hg))) in Hin.
      * destruct (submit_cases env config u1)
          as [(e & Hs)|(f & w' & tl & o' & Hf & Hns & Hs & Htl & _ & _)];
          rewrite Hs in Hin |- *; simpl in Hin; [contradiction|].
        destruct Hin as [[= <- <- <- <-]|Hin];
          [|now apply (calls_zero_no_call _ _ _ _ _ Htl) in Hin].
        exists t, ip, tl, u0, kr. simpl.
        repeat split; auto. apply (proj1 (resolver_trace _ _ _ _ Hg)).
Qed.

Lemma announcement_precedes_the_call_witness :
  exists t ip tl u0 kr,
    fst (main Examples.env Examples.settings)
    = t ++ Records.announce_record Examples.settings ip
        :: Call "udp" (Examples.update_with_ttl 3600) "192.0.2.53" 5 :: tl
    /\ Resolver.get_interface_ip Examples.env (interface Examples.settings)
       = (t, Returns (Some ip))
    /\ Builder.Update Examples.env (zone Examples.settings) kr = Ok u0
    /\ Builder.replace Examples.env u0 (hostname Examples.settings)
         (ttl Examples.settings) (IPv4.compressed ip)
       = Ok (Examples.update_with_ttl 3600)
    /\ Spec.calls t = 0%nat /\ Spec.calls tl = 0%nat.
Proof.
  apply (announcement_precedes_the_call Examples.env Examples.settings
           (Examples.update_with_ttl 3600) "udp" "192.0.2.53" 5).
  vm_compute. right. left. reflexivity.
Defined.

End LogExtras.

(** ** Loading the settings *)

Section LoadingExtras.

Import Main.

(** X17. The settings are validated before the command line is merged
    into them, the defaults of the class included: settings without a
    zone are refused by [Config()] for every command line, also one that
    gives [--zone], so such a run logs nothing and ends in the parser or
    with the validation error, before [main]. *)
Theorem zone_must_come_from_the_settings (env : Env) (settings : Config) (argv : Args) :
  zone settings = ""%string ->
  fst (script env settings argv) = []
  /\ (snd (script env settings argv) = Exits 2
      \/ (snd (script env settings argv) = Exits 0 /\ arg_help argv = true)
      \/ snd (script env settings argv) = Raises (ValidationError "Config")).
Proof.
  intros Hz.
  assert (Hv : validated settings = false).
  { unfold validated, zone_pattern. rewrite Hz. cbn [String.eqb negb andb].
    now rewrite !andb_false_r. }
  destruct (script_cases env settings argv)
    as [->|[[-> Hh]|[[-> _]|(args & _ & Hv' & _)]]]; cbn [fst snd]; auto.
  rewrite Hv in Hv'. discriminate.
Qed.

Lemma zone_must_come_from_the_settings_witness :
  fst (script Examples.env Examples.settings_without_zone Scenarios.args_zone) = []
  /\ (snd (script Examples.env Examples.settings_without_zone Scenarios.args_zone) = Exits 2
      \/ (snd (script Examples.env Examples.settings_without_zone Scenarios.args_zone)
          = Exits 0
          /\ arg_help Scenarios.args_zone = true)
      \/ snd (script Examples.env Examples.settings_without_zone Scenarios.args_zone)
         = Raises (ValidationError "Config")).
Proof.
  apply (zone_must_come_from_the_settings Examples.env Examples.settings_without_zone
           Scenarios.args_zone).
  reflexivity.
Defined.

End LoadingExtras.
